(** * iytdl: key resolution, thumbnail fallback, tool probing and lifecycle

    A shallow embedding of [iytdl/main.py] (class [iYTDL]) and the
    properties of its key-addressed resolution, thumbnail probing,
    ffmpeg/ffprobe probing and start/stop lifecycle.

    Conventions of the embedding:
    - a Python [str] is a list of Unicode code points, so that [len] is
      [length];
    - a coroutine is a computation in a state-and-exception monad over the
      [World] (file system, network sessions, cache storage, call trace);
      every [await] in the source is sequential, so [await e] is monadic
      bind;
    - collaborators whose code lives outside [main.py] (the extractor entry
      points, the HTTP host, the shell) are oracles collected in [Env]. *)

From Stdlib Require Import ZArith NArith List String Ascii Bool Lia.
From stdpp Require Import base option list gmap countable.

Open Scope Z_scope.

(** ** Python strings *)

Abbreviation str := (list N).

Definition lit (s : string) : str :=
  map N_of_ascii (list_ascii_of_string s).
Arguments lit : simpl never.

(** [len(s)] *)
Definition len (s : str) : Z := Z.of_nat (length s).

(** Truthiness of a [str]: only the empty string is falsy. *)
Definition str_truthy (s : str) : bool :=
  match s with [] => false | _ :: _ => true end.

(** ** Exceptions and results *)

Record Path := mkPath { root : bool; parts : list str }.

Inductive exn :=
| TypeError (msg : str)
| ValueError (msg : str)
| FileNotFoundError (p : Path)
| FileExistsError (p : Path)
| NotADirectoryError (p : Path)
| CollaboratorError (what : str).

Inductive result (A : Type) :=
| Ok (a : A)
| Raise (e : exn).
Arguments Ok {A} a.
Arguments Raise {A} e.

Definition is_ok {A} (r : result A) : bool :=
  match r with Ok _ => true | Raise _ => false end.

(** ** pathlib *)

Module pathlib.

#[global] Instance Path_eq_dec : EqDecision Path.
Proof. solve_decision. Defined.

#[global] Instance Path_countable : Countable Path.
Proof.
  refine (inj_countable' (λ p, (root p, parts p))
                         (λ t, mkPath t.1 t.2) _).
  by intros [].
Defined.

Definition slash : N := 47.

(** [s.split(sep)] on code points. *)
Fixpoint split (sep : N) (s : str) : list str :=
  match s with
  | [] => [[]]
  | c :: s' =>
      if (c =? sep)%N then [] :: split sep s'
      else match split sep s' with
           | [] => [[c]]
           | w :: ws => (c :: w) :: ws
           end
  end.

Definition kept (w : str) : bool :=
  match w with
  | [] => false
  | [c] => negb (c =? 46)%N
  | _ => true
  end.

(** [Path(s)] with POSIX flavour: components are separated by [/], empty
    components and [.] are dropped, a leading [/] anchors the path.
    [Path("")] is the current directory. *)
Definition of_str (s : str) : Path :=
  {| root := match s with c :: _ => (c =? slash)%N | [] => false end;
     parts := List.filter kept (split slash s) |}.

(** [p.parent] *)
Definition parent (p : Path) : Path :=
  {| root := root p; parts := removelast (parts p) |}.

(** [p.joinpath(name)] *)
Definition joinpath (p : Path) (name : str) : Path :=
  let q := of_str name in
  if root q then q
  else {| root := root p; parts := parts p ++ parts q |}.

Fixpoint join (sep : str) (ws : list str) : str :=
  match ws with
  | [] => []
  | [w] => w
  | w :: ws' => w ++ sep ++ join sep ws'
  end.

(** [str(p)] *)
Definition to_str (p : Path) : str :=
  match root p, parts p with
  | false, [] => lit "."
  | false, ws => join [slash] ws
  | true, ws => slash :: join [slash] ws
  end.

End pathlib.

(** ** File system *)

Inductive node := File | Dir.

#[global] Instance node_eq_dec : EqDecision node.
Proof. solve_decision. Defined.

Module fsys.

(** The file system maps the paths that exist to what is there; paths
    are taken as written ([..] and links are not resolved).

    What exists at [p]: the anchor of a path (the root directory, or the
    current directory for a relative path) always exists. *)
Definition node_at (fs : gmap Path node) (p : Path) : option node :=
  match parts p with
  | [] => Some Dir
  | _ => fs !! p
  end.

Definition is_file (fs : gmap Path node) (p : Path) : bool :=
  bool_decide (node_at fs p = Some File).

Definition is_dir (fs : gmap Path node) (p : Path) : bool :=
  bool_decide (node_at fs p = Some Dir).

(** Proper ancestors of a path with components [ws], nearest the anchor
    first. *)
Fixpoint ancestors_from (rt : bool) (pre ws : list str) : list Path :=
  match ws with
  | [] => []
  | [_] => []
  | w :: ws' =>
      mkPath rt (pre ++ [w]) :: ancestors_from rt (pre ++ [w]) ws'
  end.

Definition ancestors (p : Path) : list Path :=
  ancestors_from (root p) [] (parts p).

(** Path resolution of the directory part: the first ancestor that is
    missing, or is not a directory, decides the error. *)
Fixpoint walk (fs : gmap Path node) (p : Path) (anc : list Path)
  : option exn :=
  match anc with
  | [] => None
  | a :: anc' =>
      match node_at fs a with
      | None => Some (FileNotFoundError p)
      | Some File => Some (NotADirectoryError p)
      | Some Dir => walk fs p anc'
      end
  end.

(** [os.mkdir(p)] *)
Definition os_mkdir (p : Path) (fs : gmap Path node)
  : result unit * gmap Path node :=
  match walk fs p (ancestors p) with
  | Some e => (Raise e, fs)
  | None =>
      match node_at fs p with
      | Some _ => (Raise (FileExistsError p), fs)
      | None => (Ok tt, <[p := Dir]> fs)
      end
  end.

(** [Path.mkdir(parents=False, exist_ok=True)]: [FileNotFoundError] is
    raised again; any other [OSError] of [os.mkdir] is swallowed only when
    the path is a directory. *)
Definition mkdir_exist_ok (p : Path) (fs : gmap Path node)
  : result unit * gmap Path node :=
  match os_mkdir p fs with
  | (Ok u, fs') => (Ok u, fs')
  | (Raise (FileNotFoundError q), fs') => (Raise (FileNotFoundError q), fs')
  | (Raise e, fs') =>
      if is_dir fs' p then (Ok tt, fs') else (Raise e, fs')
  end.

(** [Path.mkdir(parents=True, exist_ok=True)], by recursion on the
    components taken from the last one: on [FileNotFoundError] the parent
    is created first and the directory itself afterwards. *)
Fixpoint mkdir_rev (rt : bool) (rws : list str) (fs : gmap Path node)
  : result unit * gmap Path node :=
  let p := mkPath rt (rev rws) in
  match os_mkdir p fs with
  | (Ok u, fs') => (Ok u, fs')
  | (Raise (FileNotFoundError q), fs') =>
      match rws with
      | [] => (Raise (FileNotFoundError q), fs')
      | _ :: rpar =>
          match mkdir_rev rt rpar fs' with
          | (Ok _, fs'') => mkdir_exist_ok p fs''
          | (Raise e, fs'') => (Raise e, fs'')
          end
      end
  | (Raise e, fs') =>
      if is_dir fs' p then (Ok tt, fs') else (Raise e, fs')
  end.

Definition mkdir (p : Path) (fs : gmap Path node)
  : result unit * gmap Path node :=
  mkdir_rev (root p) (rev (parts p)) fs.

End fsys.

(** ** The world, and the monad of coroutines *)

Inductive Event :=
| EvNewSession (sid : nat)
| EvHttpGet (sid : nat) (link : str)
| EvHttpClose (sid : nat)
| EvCacheGetUrl (db : Path) (key : str)
| EvCacheInit (db : Path)
| EvCacheClose (db : Path)
| EvGetDownloadButton (key : str)
| EvGenericExtractor (key url : str)
| EvRunCommand (cmd : str).

#[global] Instance Event_eq_dec : EqDecision Event.
Proof. solve_decision. Defined.

(** [sessions] is the store of [ClientSession] objects: a session is
    referred to by its index and the entry is its [closed] flag, so that an
    instance and its caller may hold the same session. *)
Record World := mkWorld {
  fs : gmap Path node;
  sessions : list bool;
  cache_rows : gmap str str;
  cache_conn : bool;
  trace : list Event
}.

Definition set_fs (f : gmap Path node) (w : World) : World :=
  mkWorld f (sessions w) (cache_rows w) (cache_conn w) (trace w).
Definition set_sessions (s : list bool) (w : World) : World :=
  mkWorld (fs w) s (cache_rows w) (cache_conn w) (trace w).
Definition set_cache_conn (b : bool) (w : World) : World :=
  mkWorld (fs w) (sessions w) (cache_rows w) b (trace w).
Definition set_cache_rows (r : gmap str str) (w : World) : World :=
  mkWorld (fs w) (sessions w) r (cache_conn w) (trace w).

(** Appending events to the trace; nothing else changes. *)
Definition logs (evs : list Event) (w : World) : World :=
  mkWorld (fs w) (sessions w) (cache_rows w) (cache_conn w) (trace w ++ evs).
Definition log (ev : Event) (w : World) : World := logs [ev] w.

Definition M (A : Type) : Type := World → result A * World.

Definition ret {A} (a : A) : M A := λ w, (Ok a, w).

Definition raise {A} (e : exn) : M A := λ w, (Raise e, w).

Definition bind {A B} (m : M A) (k : A → M B) : M B :=
  λ w, match m w with
       | (Ok a, w') => k a w'
       | (Raise e, w') => (Raise e, w')
       end.

#[global] Instance M_ret : MRet M := @ret.
#[global] Instance M_bind : MBind M := λ A B k m, bind m k.

(** Reading and updating the world. *)
Definition gets {A} (f : World → A) : M A := λ w, (Ok (f w), w).
Definition modify (f : World → World) : M unit := λ w, (Ok tt, f w).

Definition emit (ev : Event) : M unit := modify (log ev).

(** An oracle answer is returned or raised. *)
Definition lift {A} (r : result A) : M A := λ w, (r, w).

(** The cache-access counter: how many cache lookups a trace holds. *)
Fixpoint cache_lookups (evs : list Event) : nat :=
  match evs with
  | [] => 0
  | EvCacheGetUrl _ _ :: evs' => S (cache_lookups evs')
  | _ :: evs' => cache_lookups evs'
  end.

(** ** Collaborators *)

(** The collaborators of [iYTDL] that are implemented elsewhere, as oracles:
    what each answers (or raises) for given arguments.  [SR] stands for
    [types.SearhResult]. *)
Record Env (SR : Type) := mkEnv {
  (** whether [Path(...)] builds a [WindowsPath] on this platform *)
  windows : bool;
  (** [Extractor.get_download_button(yt_id)] *)
  get_download_button : str → result (option SR);
  (** [Extractor.generic_extractor(key, url)] *)
  generic_extractor : str → str → result (option SR);
  (** status of the response to [GET link], or the failure of the fetch *)
  http_fetch : str → result Z;
  (** [utils.run_command(cmd, shell=True)]: output and exit status *)
  run_command : str → str * Z;
  (** [Extractor.__init__(silent=...)] through [super().__init__] *)
  extractor_init : bool → result unit
}.
Arguments windows {SR} _.
Arguments get_download_button {SR} _ _.
Arguments generic_extractor {SR} _ _ _.
Arguments http_fetch {SR} _ _.
Arguments run_command {SR} _ _.
Arguments extractor_init {SR} _ _.

Module ClientSession.

(** [ClientSession()]: a new, open session. *)
Definition new : M nat :=
  sid ← gets (λ w, length (sessions w));
  modify (λ w, set_sessions (sessions w ++ [false]) w);;
  emit (EvNewSession sid);;
  ret sid.

(** [session.closed] *)
Definition closed (sid : nat) : M bool :=
  gets (λ w, default true (sessions w !! sid)).

(** [await session.close()] *)
Definition close (sid : nat) : M unit :=
  emit (EvHttpClose sid);;
  modify (λ w, set_sessions (<[sid := true]> (sessions w)) w).

(** [async with session.get(link) as resp]: the status of the response,
    or the exception of the fetch. *)
Definition get {SR} (E : Env SR) (sid : nat) (link : str) : M Z :=
  emit (EvHttpGet sid link);; lift (http_fetch E link).

End ClientSession.

Module AioSQLiteDB.

(** Modelled from the spec: [iytdl/sql_cache.py] is not among the sources.
    [_init] initializes the storage, creating the backing store if
    absent. *)
Definition _init (db : Path) : M unit :=
  emit (EvCacheInit db);;
  modify (λ w, match fsys.node_at (fs w) db with
               | None => set_fs (<[db := File]> (fs w)) w
               | Some _ => w
               end);;
  modify (set_cache_conn true).

(** Modelled from the spec: [iytdl/sql_cache.py] is not among the sources.
    [get_url] is a point lookup of the stored URL, without side effects on
    the store. *)
Definition get_url (db : Path) (key : str) : M (option str) :=
  emit (EvCacheGetUrl db key);;
  gets (λ w, cache_rows w !! key).

(** Modelled from the spec: [iytdl/sql_cache.py] is not among the sources.
    [close] releases the storage handle; it is idempotent, and does not
    raise when the storage was never opened. *)
Definition close (db : Path) : M unit :=
  emit (EvCacheClose db);;
  modify (set_cache_conn false).

End AioSQLiteDB.

Module os.

Definition mkdir_parents_exist_ok (p : Path) : M unit :=
  λ w, let '(r, fs') := fsys.mkdir p (fs w) in (r, set_fs fs' w).

Definition is_file (p : Path) : M bool :=
  gets (λ w, fsys.is_file (fs w) p).

End os.

(** ** The class [iYTDL] *)

(** Arguments of the constructor; [session], [loop] and
    [external_downloader] are references to objects of the caller. *)
Record Args := mkArgs {
  arg_log_group_id : Z + str;
  arg_session : option nat;
  arg_silent : bool;
  arg_download_path : str;
  arg_loop : option nat;
  arg_default_thumb : str;
  arg_cache_path : str;
  arg_delete_media : bool;
  arg_external_downloader : option nat;
  arg_ffmpeg_location : str
}.

(** The defaults of the signature of [__init__]. *)
Definition default_args (log_group_id : Z + str) : Args :=
  {| arg_log_group_id := log_group_id;
     arg_session := None;
     arg_silent := false;
     arg_download_path := lit "downloads";
     arg_loop := None;
     arg_default_thumb := lit "https://i.imgur.com/4LwPLai.png";
     arg_cache_path := lit "";
     arg_delete_media := false;
     arg_external_downloader := None;
     arg_ffmpeg_location := lit "ffmpeg" |}.

(** The attributes of an instance.  [_ffmpeg] is the [str] it was given or
    a [Path]; [_ffprobe] is an attribute that exists only once
    [_check_ffmpeg] has set it. *)
Record iYTDL := mkiYTDL {
  default_thumb : str;
  http : nat;
  cache : Path;
  loop : option nat;
  download_path : Path;
  log_group_id : Z + str;
  external_downloader : option nat;
  delete_file_after_upload : bool;
  _ffmpeg : str + Path;
  _ffprobe : option (str + Path)
}.

Definition set__ffprobe (v : str + Path) (self : iYTDL) : iYTDL :=
  mkiYTDL (default_thumb self) (http self) (cache self) (loop self)
          (download_path self) (log_group_id self)
          (external_downloader self) (delete_file_after_upload self)
          (_ffmpeg self) (Some v).

(** [f"{x}"] for a [str] or a [Path]. *)
Definition fmt (x : str + Path) : str :=
  match x with inl s => s | inr p => pathlib.to_str p end.

(** The qualities probed by [get_ytthumb], in the order of the source. *)
Definition QUALITIES : list str :=
  [lit "maxresdefault"; lit "hqdefault"; lit "sddefault"; lit "mqdefault";
   lit "default"].

(** [f"https://i.ytimg.com/vi/{yt_id}/{quality}.jpg"] *)
Definition thumb_link (yt_id quality : str) : str :=
  lit "https://i.ytimg.com/vi/" ++ yt_id ++ lit "/" ++ quality ++ lit ".jpg".

Section iYTDL.

Context {SR : Type} (E : Env SR).

Definition __init__ (a : Args) : M iYTDL :=
  http ← match arg_session a with
         | Some s => ret s
         | None => ClientSession.new
         end;
  let _cache_path := pathlib.of_str (arg_cache_path a) in
  os.mkdir_parents_exist_ok _cache_path;;
  isf ← os.is_file _cache_path;
  if (isf : bool) then
    raise (TypeError (lit "'" ++ arg_cache_path a
                      ++ lit "' expected a Directory got a File instead"))
  else
    let cache := pathlib.joinpath _cache_path (lit "yt_search_cache.db") in
    let download_path := pathlib.of_str (arg_download_path a) in
    os.mkdir_parents_exist_ok download_path;;
    ffmpeg ← (if bool_decide (arg_ffmpeg_location a ≠ lit "ffmpeg") then
                let ffmpeg_location := pathlib.of_str (arg_ffmpeg_location a) in
                isf ← os.is_file ffmpeg_location;
                if negb isf then raise (FileNotFoundError ffmpeg_location)
                else ret (inr ffmpeg_location)
              else ret (inl (arg_ffmpeg_location a)));
    lift (extractor_init E (arg_silent a));;
    ret {| default_thumb := arg_default_thumb a;
           http := http;
           cache := cache;
           loop := arg_loop a;
           download_path := download_path;
           log_group_id := arg_log_group_id a;
           external_downloader := arg_external_downloader a;
           delete_file_after_upload := arg_delete_media a;
           _ffmpeg := ffmpeg;
           _ffprobe := None |}.

Definition extract_info_from_key (self : iYTDL) (key : str)
  : M (option SR) :=
  if len key =? 11 then
    emit (EvGetDownloadButton key);;
    lift (get_download_button E key)
  else
    url ← AioSQLiteDB.get_url (cache self) key;
    match url with
    | Some u =>
        if str_truthy u then
          emit (EvGenericExtractor key u);;
          lift (generic_extractor E key u)
        else ret None
    | None => ret None
    end.

(** The [for ... else] loop of [get_ytthumb] over the remaining
    qualities: [break] leaves with the link just built, exhaustion takes
    the [else] branch. *)
Fixpoint probe_qualities (self : iYTDL) (yt_id : str) (qs : list str)
  : M str :=
  match qs with
  | [] => ret (default_thumb self)
  | quality :: qs' =>
      let link := thumb_link yt_id quality in
      status ← ClientSession.get E (http self) link;
      if status =? 200 then ret link
      else probe_qualities self yt_id qs'
  end.

Definition get_ytthumb (self : iYTDL) (yt_id : str) : M str :=
  probe_qualities self yt_id QUALITIES.

Definition run (cmd : str) : M (str * Z) :=
  emit (EvRunCommand cmd);; ret (run_command E cmd).

Definition _check_ffmpeg (self : iYTDL) : M iYTDL :=
  '(ffmpeg, ffprobe) ←
    match _ffmpeg self with
    | inr p =>
        let _ffprobe :=
          pathlib.joinpath (pathlib.parent p)
            (lit "ffprobe" ++ (if windows E then lit ".exe" else lit "")) in
        isf ← os.is_file _ffprobe;
        ret (inr p, if (isf : bool) then Some (inr _ffprobe) else None)
    | inl _ => ret (inl (lit "ffmpeg"), Some (inl (lit "ffprobe")))
    end;
  out_1 ← run (fmt ffmpeg ++ lit " -version");
  if negb (out_1.2 =? 0) then
    raise (ValueError (lit "'" ++ fmt ffmpeg ++ lit "' was not Found !"))
  else
    match ffprobe with
    | Some fp =>
        out_2 ← run (fmt fp ++ lit " -version");
        if out_2.2 =? 0 then ret (set__ffprobe fp self) else ret self
    | None => ret self
    end.

Definition stop (self : iYTDL) : M unit :=
  closed ← ClientSession.closed (http self);
  (if negb closed then ClientSession.close (http self) else ret tt);;
  AioSQLiteDB.close (cache self).

Definition start (self : iYTDL) : M iYTDL :=
  self' ← _check_ffmpeg self;
  AioSQLiteDB._init (cache self');;
  ret self'.

(** The class method [init]: construct, then [start]. *)
Definition init (a : Args) : M iYTDL :=
  yt ← __init__ a;
  start yt.

Definition __aenter__ (self : iYTDL) : M iYTDL := start self.

Definition __aexit__ (self : iYTDL) : M unit := stop self.

End iYTDL.

Definition fs_demo : gmap Path node :=
  <[pathlib.of_str (lit "cache.db") := File]>
    (<[pathlib.of_str (lit "bin") := Dir]> ∅).


(** ** Specification-level readings of the collaborators' answers *)

Section readings.

Context {SR : Type} (E : Env SR).

(** The fetch for this quality answered with status 200. *)
Definition answers_200 (yt_id quality : str) : bool :=
  match http_fetch E (thumb_link yt_id quality) with
  | Ok status => status =? 200
  | Raise _ => false
  end.

(** The fetch for this quality answered with a status of the 200 class. *)
Definition answers_2xx (yt_id quality : str) : bool :=
  match http_fetch E (thumb_link yt_id quality) with
  | Ok status => (200 <=? status) && (status <? 300)
  | Raise _ => false
  end.

(** The fetch for this quality answered at all. *)
Definition answers (yt_id quality : str) : bool :=
  is_ok (http_fetch E (thumb_link yt_id quality)).

(** The link of the first quality of [qs] that is found, or the default
    thumbnail. *)
Definition best_thumb (found : str → bool) (yt_id dflt : str)
    (qs : list str) : str :=
  match List.find found qs with
  | Some quality => thumb_link yt_id quality
  | None => dflt
  end.

(** The qualities that are probed, in order: all up to and including the
    first one found. *)
Fixpoint probed (found : str → bool) (qs : list str) : list str :=
  match qs with
  | [] => []
  | quality :: qs' =>
      quality :: (if found quality then [] else probed found qs')
  end.

Definition probe_events (sid : nat) (yt_id : str) (qs : list str)
  : list Event :=
  map (λ quality, EvHttpGet sid (thumb_link yt_id quality)) qs.

(** The primary tool as [_check_ffmpeg] names it: the custom path, or
    the plain name. *)
Definition ffmpeg_tool (self : iYTDL) : str + Path :=
  match _ffmpeg self with
  | inr p => inr p
  | inl _ => inl (lit "ffmpeg")
  end.

(** The command line of the version query of a tool. *)
Definition version_query (tool : str + Path) : str :=
  fmt tool ++ lit " -version".

(** Exit status of the version query of a tool. *)
Definition query_status (tool : str + Path) : Z :=
  (run_command E (version_query tool)).2.

(** Where ffprobe is looked for: next to a custom ffmpeg, if that file
    exists; the plain name otherwise. *)
Definition ffprobe_candidate (self : iYTDL) (w : World)
  : option (str + Path) :=
  match _ffmpeg self with
  | inr p =>
      let fp := pathlib.joinpath (pathlib.parent p)
                  (lit "ffprobe" ++ (if windows E then lit ".exe" else lit "")) in
      if fsys.is_file (fs w) fp then Some (inr fp) else None
  | inl _ => Some (inl (lit "ffprobe"))
  end.

(** The instance after [_check_ffmpeg] when the primary tool answered:
    [_ffprobe] is set exactly when there is a candidate and its version
    query exits with status 0. *)
Definition after_probe (self : iYTDL) (w : World) : iYTDL :=
  match ffprobe_candidate self w with
  | Some fp => if query_status fp =? 0 then set__ffprobe fp self else self
  | None => self
  end.

(** The commands [_check_ffmpeg] runs when the primary tool answered. *)
Definition probe_trace (self : iYTDL) (w : World) : list Event :=
  EvRunCommand (version_query (ffmpeg_tool self))
  :: match ffprobe_candidate self w with
     | Some fp => [EvRunCommand (version_query fp)]
     | None => []
     end.

(** The session an instance gets and the world after [ClientSession()]
    was called, when it is. *)
Definition session_of (a : Args) (w : World) : nat * World :=
  match arg_session a with
  | Some sid => (sid, w)
  | None =>
      (length (sessions w),
       logs [EvNewSession (length (sessions w))]
            (set_sessions (sessions w ++ [false]) w))
  end.

(** The instance a successful construction returns. *)
Definition instance_of (a : Args) (w : World) : iYTDL :=
  {| default_thumb := arg_default_thumb a;
     http := (session_of a w).1;
     cache := pathlib.joinpath (pathlib.of_str (arg_cache_path a))
                (lit "yt_search_cache.db");
     loop := arg_loop a;
     download_path := pathlib.of_str (arg_download_path a);
     log_group_id := arg_log_group_id a;
     external_downloader := arg_external_downloader a;
     delete_file_after_upload := arg_delete_media a;
     _ffmpeg := if bool_decide (arg_ffmpeg_location a ≠ lit "ffmpeg")
                then inr (pathlib.of_str (arg_ffmpeg_location a))
                else inl (arg_ffmpeg_location a);
     _ffprobe := None |}.

(** The world after [stop]: the session of the instance is closed if it
    was open, and the cache storage is closed. *)
Definition after_stop (self : iYTDL) (w : World) : World :=
  if default true (sessions w !! http self) then
    set_cache_conn false (logs [EvCacheClose (cache self)] w)
  else
    set_cache_conn false
      (logs [EvHttpClose (http self); EvCacheClose (cache self)]
         (set_sessions (<[http self := true]> (sessions w)) w)).

Definition is_OSError (e : exn) : bool :=
  match e with
  | FileNotFoundError _ | FileExistsError _ | NotADirectoryError _ => true
  | _ => false
  end.

End readings.

(** ** A concrete environment *)

Definition vid : str := lit "dQw4w9WgXcQ".

(** An environment in which every tool answers, the thumbnail host knows
    [vid] from [sddefault] downward, and the extractor answers every
    request. *)
Definition env_demo : Env nat :=
  {| windows := false;
     get_download_button := λ _, Ok (Some 1%nat);
     generic_extractor := λ _ _, Ok (Some 2%nat);
     http_fetch := λ link,
       if bool_decide (link = thumb_link vid (lit "maxresdefault")
                       ∨ link = thumb_link vid (lit "hqdefault"))
       then Ok 404 else Ok 200;
     run_command := λ _, (lit "", 0);
     extractor_init := λ _, Ok tt |}.

(** The thumbnail host answers 204 for the best quality and 200 for the
    next one. *)
Definition env_204 : Env nat :=
  {| windows := false;
     get_download_button := λ _, Ok (Some 1%nat);
     generic_extractor := λ _ _, Ok (Some 2%nat);
     http_fetch := λ link,
       if bool_decide (link = thumb_link vid (lit "maxresdefault"))
       then Ok 204 else Ok 200;
     run_command := λ _, (lit "", 0);
     extractor_init := λ _, Ok tt |}.

(** The thumbnail host answers 404 throughout. *)
Definition env_404 : Env nat :=
  {| windows := false;
     get_download_button := λ _, Ok (Some 1%nat);
     generic_extractor := λ _ _, Ok (Some 2%nat);
     http_fetch := λ _, Ok 404;
     run_command := λ _, (lit "", 0);
     extractor_init := λ _, Ok tt |}.

(** The fetch of the second quality fails in transport; the first one is
    not found. *)
Definition env_transport : Env nat :=
  {| windows := false;
     get_download_button := λ _, Ok (Some 1%nat);
     generic_extractor := λ _ _, Ok (Some 2%nat);
     http_fetch := λ link,
       if bool_decide (link = thumb_link vid (lit "maxresdefault"))
       then Ok 404
       else if bool_decide (link = thumb_link vid (lit "hqdefault"))
       then Raise (CollaboratorError (lit "ClientConnectorError"))
       else Ok 200;
     run_command := λ _, (lit "", 0);
     extractor_init := λ _, Ok tt |}.

(** Only ffmpeg answers its version query. *)
Definition env_no_ffprobe : Env nat :=
  {| windows := false;
     get_download_button := λ _, Ok (Some 1%nat);
     generic_extractor := λ _ _, Ok (Some 2%nat);
     http_fetch := λ _, Ok 404;
     run_command := λ cmd,
       if bool_decide (cmd = lit "ffmpeg -version") then (lit "", 0)
       else (lit "", 127);
     extractor_init := λ _, Ok tt |}.

(** No tool answers its version query. *)
Definition env_no_ffmpeg : Env nat :=
  {| windows := false;
     get_download_button := λ _, Ok (Some 1%nat);
     generic_extractor := λ _ _, Ok (Some 2%nat);
     http_fetch := λ _, Ok 404;
     run_command := λ _, (lit "", 127);
     extractor_init := λ _, Ok tt |}.

Definition url_demo : str := lit "https://example.com/x".
Definition key_demo : str := lit "0a1b2c3d".
Definition key_empty : str := lit "feedbeef".
Definition key_unknown : str := lit "never-issued".

(** A world with a file [cache.db], a directory [bin], one open session of
    the caller, and a cache that holds [url_demo] under [key_demo] and the
    empty string under [key_empty]. *)
Definition world_demo : World :=
  {| fs := fs_demo;
     sessions := [false];
     cache_rows := <[key_empty := lit ""]> (<[key_demo := url_demo]> ∅);
     cache_conn := false;
     trace := [] |}.

Definition self_demo : iYTDL :=
  {| default_thumb := lit "https://i.imgur.com/4LwPLai.png";
     http := 0%nat;
     cache := pathlib.of_str (lit "yt_search_cache.db");
     loop := None;
     download_path := pathlib.of_str (lit "downloads");
     log_group_id := inl 1836493687;
     external_downloader := None;
     delete_file_after_upload := false;
     _ffmpeg := inl (lit "ffmpeg");
     _ffprobe := None |}.

(** The same instance with an empty default thumbnail configured. *)
Definition self_no_thumb : iYTDL :=
  {| default_thumb := lit "";
     http := 0%nat;
     cache := pathlib.of_str (lit "yt_search_cache.db");
     loop := None;
     download_path := pathlib.of_str (lit "downloads");
     log_group_id := inl 1836493687;
     external_downloader := None;
     delete_file_after_upload := false;
     _ffmpeg := inl (lit "ffmpeg");
     _ffprobe := None |}.

Definition args_demo : Args := default_args (inl 1836493687).

(** The caller supplies its own session (number 0 of [world_demo]). *)
Definition args_external_session : Args :=
  {| arg_log_group_id := inl 1836493687;
     arg_session := Some 0%nat;
     arg_silent := false;
     arg_download_path := lit "downloads";
     arg_loop := None;
     arg_default_thumb := lit "https://i.imgur.com/4LwPLai.png";
     arg_cache_path := lit "cache";
     arg_delete_media := false;
     arg_external_downloader := None;
     arg_ffmpeg_location := lit "ffmpeg" |}.

(** [cache_path] names the existing plain file [cache.db]. *)
Definition args_cache_is_file : Args :=
  {| arg_log_group_id := inl 1836493687;
     arg_session := None;
     arg_silent := false;
     arg_download_path := lit "downloads";
     arg_loop := None;
     arg_default_thumb := lit "https://i.imgur.com/4LwPLai.png";
     arg_cache_path := lit "cache.db";
     arg_delete_media := false;
     arg_external_downloader := None;
     arg_ffmpeg_location := lit "ffmpeg" |}.

(** A custom ffmpeg location at which there is no file. *)
Definition args_ffmpeg_missing : Args :=
  {| arg_log_group_id := inl 1836493687;
     arg_session := None;
     arg_silent := false;
     arg_download_path := lit "downloads";
     arg_loop := None;
     arg_default_thumb := lit "https://i.imgur.com/4LwPLai.png";
     arg_cache_path := lit "cache";
     arg_delete_media := false;
     arg_external_downloader := None;
     arg_ffmpeg_location := lit "bin/ffmpeg" |}.


(** ** The scoped use of an instance *)

Section scoped_use.

Context {SR : Type} (E : Env SR).

(** [async with self as yt: body(yt)].  [__aenter__] is awaited first; when
    it raises, neither the body nor [__aexit__] runs.  Otherwise
    [__aexit__] is awaited after the body on every exit path; it returns
    [None], which is falsy, so an exception of the body is raised again
    once [__aexit__] has returned. *)
Definition async_with {A} (self : iYTDL) (body : iYTDL → M A) : M A :=
  λ w, match __aenter__ E self w with
       | (Raise e, w1) => (Raise e, w1)
       | (Ok yt, w1) =>
           match body yt w1 with
           | (Ok r, w2) =>
               match __aexit__ self w2 with
               | (Ok _, w3) => (Ok r, w3)
               | (Raise e, w3) => (Raise e, w3)
               end
           | (Raise e, w2) =>
               match __aexit__ self w2 with
               | (Ok _, w3) => (Raise e, w3)
               | (Raise e', w3) => (Raise e', w3)
               end
           end
       end.

(** The fetch for this quality ends the loop of [get_ytthumb]: it raised, or
    it answered with status 200. *)
Definition ends_loop (yt_id quality : str) : bool :=
  negb (answers E yt_id quality) || answers_200 E yt_id quality.

End scoped_use.


(** Every path that exists lies below directories only. *)
Definition well_formed (fs : gmap Path node) : Prop :=
  ∀ p n, fsys.node_at fs p = Some n →
         Forall (λ a, fsys.is_dir fs a = true) (fsys.ancestors p).

(** ** More concrete data *)

(** The best quality is found; every other fetch would fail in transport. *)
Definition env_late_failure : Env nat :=
  {| windows := false;
     get_download_button := λ _, Ok (Some 1%nat);
     generic_extractor := λ _ _, Ok (Some 2%nat);
     http_fetch := λ link,
       if bool_decide (link = thumb_link vid (lit "maxresdefault"))
       then Ok 200
       else Raise (CollaboratorError (lit "ClientConnectorError"));
     run_command := λ _, (lit "", 0);
     extractor_init := λ _, Ok tt |}.

(** [self_demo] after an earlier probe that found ffprobe. *)
Definition self_probed : iYTDL := set__ffprobe (inl (lit "ffprobe")) self_demo.

(** A body that uses the instance and then fails. *)
Definition body_fails (yt : iYTDL) : M str :=
  get_ytthumb env_transport yt vid.

(** A world in which a custom ffmpeg exists as the file [bin/ffmpeg], with
    no ffprobe beside it. *)
Definition world_tools : World :=
  {| fs := <[pathlib.of_str (lit "bin/ffmpeg") := File]> fs_demo;
     sessions := [false];
     cache_rows := ∅;
     cache_conn := false;
     trace := [] |}.

Definition args_custom_ffmpeg : Args :=
  {| arg_log_group_id := inl 1836493687;
     arg_session := None;
     arg_silent := false;
     arg_download_path := lit "downloads";
     arg_loop := None;
     arg_default_thumb := lit "https://i.imgur.com/4LwPLai.png";
     arg_cache_path := lit "cache";
     arg_delete_media := false;
     arg_external_downloader := None;
     arg_ffmpeg_location := lit "bin/ffmpeg" |}.

(** ** Facts about the file system model *)

Module fsys_facts.
Import fsys.

Lemma is_file_spec fs p : is_file fs p = true ↔ node_at fs p = Some File.
Proof. unfold is_file. by rewrite bool_decide_eq_true. Qed.

Lemma is_dir_spec fs p : is_dir fs p = true ↔ node_at fs p = Some Dir.
Proof. unfold is_dir. by rewrite bool_decide_eq_true. Qed.

Lemma file_not_dir fs p : is_file fs p = true → is_dir fs p = false.
Proof.
  rewrite is_file_spec. intros H. unfold is_dir.
  apply bool_decide_eq_false. rewrite H. discriminate.
Qed.

(** Creating a directory never creates, removes or replaces a file. *)
Lemma os_mkdir_is_file p fs q :
  is_file (os_mkdir p fs).2 q = is_file fs q.
Proof.
  unfold os_mkdir.
  destruct (walk fs p (ancestors p)); [done|].
  destruct (node_at fs p) eqn:Hp; [done|]. simpl.
  unfold is_file, node_at in *.
  destruct (parts q) eqn:Hq; [done|].
  destruct (decide (p = q)) as [->|Hne].
  - rewrite Hq in Hp. rewrite lookup_insert_eq, Hp.
    apply bool_decide_ext. split; discriminate.
  - by rewrite lookup_insert_ne.
Qed.

Lemma os_mkdir_ok p fs : (os_mkdir p fs).1 = Ok tt → is_dir (os_mkdir p fs).2 p = true.
Proof.
  unfold os_mkdir.
  destruct (walk fs p (ancestors p)); [done|].
  destruct (node_at fs p) eqn:Hp; [done|]. simpl. intros _.
  apply is_dir_spec. unfold node_at in *.
  destruct (parts p); [done|]. by rewrite lookup_insert_eq.
Qed.

Lemma mkdir_exist_ok_is_file p fs q :
  is_file (mkdir_exist_ok p fs).2 q = is_file fs q.
Proof.
  unfold mkdir_exist_ok.
  pose proof (os_mkdir_is_file p fs q) as H.
  destruct (os_mkdir p fs) as [[u|e] fs']; simpl in *; [done|].
  destruct e; try (by destruct (is_dir fs' p)); done.
Qed.

Lemma mkdir_exist_ok_ok p fs :
  is_ok (mkdir_exist_ok p fs).1 = true →
  is_dir (mkdir_exist_ok p fs).2 p = true.
Proof.
  unfold mkdir_exist_ok.
  pose proof (os_mkdir_ok p fs) as H.
  destruct (os_mkdir p fs) as [[[]|e] fs']; simpl in *; [auto|].
  destruct e; try (by destruct (is_dir fs' p) eqn:Hd); done.
Qed.

Lemma mkdir_rev_is_file rt rws fs q :
  is_file (mkdir_rev rt rws fs).2 q = is_file fs q.
Proof.
  revert fs. induction rws as [|w rws IH]; intros fs; simpl.
  - pose proof (os_mkdir_is_file (mkPath rt []) fs q) as H.
    destruct (os_mkdir (mkPath rt []) fs) as [[u|e] fs']; simpl in *; [done|].
    destruct e; try (by destruct (is_dir fs' _)); done.
  - pose proof (os_mkdir_is_file (mkPath rt (rev rws ++ [w])) fs q) as H.
    destruct (os_mkdir (mkPath rt (rev rws ++ [w])) fs) as [[u|e] fs'];
      simpl in *; [done|].
    destruct e; try (by destruct (is_dir fs' _)).
    specialize (IH fs').
    destruct (mkdir_rev rt rws fs') as [[u|e] fs'']; simpl in *;
      [|congruence].
    rewrite mkdir_exist_ok_is_file. congruence.
Qed.

Lemma mkdir_is_file p fs q : is_file (mkdir p fs).2 q = is_file fs q.
Proof. apply mkdir_rev_is_file. Qed.

Lemma mkdir_rev_ok rt rws fs :
  is_ok (mkdir_rev rt rws fs).1 = true →
  is_dir (mkdir_rev rt rws fs).2 (mkPath rt (rev rws)) = true.
Proof.
  destruct rws as [|w rws]; simpl.
  - pose proof (os_mkdir_ok (mkPath rt []) fs) as H.
    destruct (os_mkdir (mkPath rt []) fs) as [[[]|e] fs']; simpl in *; [auto|].
    destruct e; try (by destruct (is_dir fs' _) eqn:Hd); done.
  - pose proof (os_mkdir_ok (mkPath rt (rev rws ++ [w])) fs) as H.
    destruct (os_mkdir (mkPath rt (rev rws ++ [w])) fs) as [[[]|e] fs'];
      simpl in *; [auto|].
    destruct e; try (by destruct (is_dir fs' _) eqn:Hd).
    destruct (mkdir_rev rt rws fs') as [[u|e] fs'']; simpl; [|done].
    apply mkdir_exist_ok_ok.
Qed.

(** A successful [mkdir] leaves a directory at the path. *)
Lemma mkdir_ok p fs :
  is_ok (mkdir p fs).1 = true → is_dir (mkdir p fs).2 p = true.
Proof.
  unfold mkdir. intros H. apply mkdir_rev_ok in H.
  rewrite rev_involutive in H. by destruct p.
Qed.

(** On an existing plain file [mkdir(parents=True, exist_ok=True)] never
    succeeds. *)
Lemma mkdir_on_file p fs :
  is_file fs p = true → is_ok (mkdir p fs).1 = false.
Proof.
  intros Hf. destruct (is_ok (mkdir p fs).1) eqn:Hok; [|done].
  apply mkdir_ok in Hok.
  rewrite <- (mkdir_is_file p fs p) in Hf.
  apply file_not_dir in Hf. congruence.
Qed.

Lemma dir_not_file fs p : is_dir fs p = true → is_file fs p = false.
Proof.
  rewrite is_dir_spec. intros H. unfold is_file.
  apply bool_decide_eq_false. rewrite H. discriminate.
Qed.

Lemma walk_OSError fs p anc e : walk fs p anc = Some e → is_OSError e = true.
Proof.
  induction anc as [|a anc IH]; simpl; [done|].
  destruct (node_at fs a) as [[]|]; [| |]; try done; by intros [= <-].
Qed.

Lemma os_mkdir_OSError p fs e :
  (os_mkdir p fs).1 = Raise e → is_OSError e = true.
Proof.
  unfold os_mkdir.
  destruct (walk fs p (ancestors p)) as [e'|] eqn:Hw; simpl.
  - intros [= <-]. by eapply walk_OSError.
  - destruct (node_at fs p); simpl; [by intros [= <-]|done].
Qed.

Lemma mkdir_exist_ok_OSError p fs e :
  (mkdir_exist_ok p fs).1 = Raise e → is_OSError e = true.
Proof.
  unfold mkdir_exist_ok.
  pose proof (os_mkdir_OSError p fs) as H.
  destruct (os_mkdir p fs) as [[u|e'] fs']; simpl in *; [done|].
  destruct e'; try (destruct (is_dir fs' p); simpl; [done|]);
    intros [= <-]; by apply H.
Qed.

Lemma mkdir_rev_OSError rt rws fs e :
  (mkdir_rev rt rws fs).1 = Raise e → is_OSError e = true.
Proof.
  revert fs. induction rws as [|w rws IH]; intros fs; simpl.
  - pose proof (os_mkdir_OSError (mkPath rt []) fs) as H.
    destruct (os_mkdir (mkPath rt []) fs) as [[u|e'] fs']; simpl in *;
      [done|].
    destruct e'; try (destruct (is_dir fs' _); simpl; [done|]);
      intros [= <-]; by apply H.
  - pose proof (os_mkdir_OSError (mkPath rt (rev rws ++ [w])) fs) as H.
    destruct (os_mkdir (mkPath rt (rev rws ++ [w])) fs) as [[u|e'] fs'];
      simpl in *; [done|].
    destruct e'; try (destruct (is_dir fs' _); simpl; [done|]);
      try (intros [= <-]; by apply H).
    specialize (IH fs').
    destruct (mkdir_rev rt rws fs') as [[u|e'] fs'']; simpl in *.
    + apply mkdir_exist_ok_OSError.
    + apply IH.
Qed.

(** [mkdir] raises nothing but the errors of [os.mkdir]. *)
Lemma mkdir_OSError p fs e : (mkdir p fs).1 = Raise e → is_OSError e = true.
Proof. apply mkdir_rev_OSError. Qed.

(** When every proper ancestor is a directory, path resolution finds no
    error. *)
Lemma walk_dirs fs p anc :
  Forall (λ a, is_dir fs a = true) anc → walk fs p anc = None.
Proof.
  induction 1 as [|a anc Ha _ IH]; simpl; [done|].
  apply is_dir_spec in Ha. by rewrite Ha.
Qed.

(** When [os.mkdir] raises anything but [FileNotFoundError], the recursion
    on the parents is not entered. *)
Lemma mkdir_rev_head rt rws fs :
  mkdir_rev rt rws fs =
  match os_mkdir (mkPath rt (rev rws)) fs with
  | (Ok u, fs') => (Ok u, fs')
  | (Raise (FileNotFoundError q), fs') => mkdir_rev rt rws fs
  | (Raise e, fs') => if is_dir fs' (mkPath rt (rev rws)) then (Ok tt, fs')
                      else (Raise e, fs')
  end.
Proof.
  destruct rws as [|w rws]; simpl.
  - destruct (os_mkdir (mkPath rt []) fs) as [[u|[]] fs']; reflexivity.
  - destruct (os_mkdir (mkPath rt (rev rws ++ [w])) fs) as [[u|[]] fs'];
      reflexivity.
Qed.

(** On an existing plain file whose ancestors are directories, the error
    is [FileExistsError], and nothing changes. *)
Lemma mkdir_on_file_exists p fs :
  is_file fs p = true →
  Forall (λ a, is_dir fs a = true) (ancestors p) →
  mkdir p fs = (Raise (FileExistsError p), fs).
Proof.
  intros Hf Hanc.
  assert (Hos : os_mkdir p fs = (Raise (FileExistsError p), fs)).
  { unfold os_mkdir. rewrite (walk_dirs _ _ _ Hanc).
    apply is_file_spec in Hf. by rewrite Hf. }
  apply file_not_dir in Hf.
  unfold mkdir. rewrite mkdir_rev_head, rev_involutive.
  replace (mkPath (root p) (parts p)) with p by (by destruct p).
  rewrite Hos. by rewrite Hf.
Qed.

End fsys_facts.

Example mkdir_demo1 :
  (fsys.mkdir (pathlib.of_str (lit "a/b")) fs_demo).1 = Ok tt.
Proof. vm_compute. reflexivity. Qed.

Example mkdir_demo2 :
  (fsys.mkdir (pathlib.of_str (lit "cache.db")) fs_demo).1
  = Raise (FileExistsError (pathlib.of_str (lit "cache.db"))).
Proof. vm_compute. reflexivity. Qed.

Example mkdir_demo3 :
  (fsys.mkdir (pathlib.of_str (lit "")) fs_demo).1 = Ok tt.
Proof. vm_compute. reflexivity. Qed.

Example mkdir_demo4 :
  (fsys.mkdir (pathlib.of_str (lit "cache.db/x")) fs_demo).1
  = Raise (NotADirectoryError (pathlib.of_str (lit "cache.db/x"))).
Proof. vm_compute. reflexivity. Qed.

(** ** The monad: evaluation lemmas *)

Lemma logs_logs evs1 evs2 w : logs evs2 (logs evs1 w) = logs (evs1 ++ evs2) w.
Proof. unfold logs. simpl. by rewrite <- app_assoc. Qed.

Lemma logs_nil w : logs [] w = w.
Proof. destruct w. unfold logs. simpl. by rewrite app_nil_r. Qed.

Lemma cache_lookups_app evs1 evs2 :
  cache_lookups (evs1 ++ evs2) = (cache_lookups evs1 + cache_lookups evs2)%nat.
Proof.
  induction evs1 as [|ev evs1 IH]; simpl; [done|].
  destruct ev; simpl; lia.
Qed.

Lemma bind_ok {A B} (m : M A) (k : A → M B) w a w' :
  m w = (Ok a, w') → (m ≫= k) w = k a w'.
Proof. intros H. unfold mbind, M_bind, bind. by rewrite H. Qed.

Lemma bind_raise {A B} (m : M A) (k : A → M B) w e w' :
  m w = (Raise e, w') → (m ≫= k) w = (Raise e, w').
Proof. intros H. unfold mbind, M_bind, bind. by rewrite H. Qed.

Ltac run_m :=
  unfold mbind, M_bind, bind, mret, M_ret, ret, raise, emit, gets, modify,
    lift, log in *; simpl in *.

(** ** Key resolution *)

Section key_resolution.

Context {SR : Type} (E : Env SR).

(** What [extract_info_from_key] does with a key that is not a video
    identifier, by the row the cache holds for it. *)
Lemma extract_info_from_key_cached (self : iYTDL) (key : str) (w : World) :
  len key ≠ 11 →
  extract_info_from_key E self key w =
  match cache_rows w !! key with
  | Some (c :: u) =>
      (generic_extractor E key (c :: u),
       logs [EvCacheGetUrl (cache self) key;
             EvGenericExtractor key (c :: u)] w)
  | _ => (Ok None, logs [EvCacheGetUrl (cache self) key] w)
  end.
Proof.
  intros Hlen. unfold extract_info_from_key.
  apply Z.eqb_neq in Hlen. rewrite Hlen.
  unfold AioSQLiteDB.get_url. run_m.
  destruct (cache_rows w !! key) as [[|c u]|]; simpl; try done.
  by rewrite logs_logs.
Qed.

(** C1. A key of length exactly 11 is handed to the
    resolve-by-video-identifier entry point, whose result (a value, [None]
    or an exception) is returned as it is, and the cache-lookup counter
    does not move; a key of any other length starts with a lookup of that
    key in the cache, which moves the counter by one. *)
Theorem extract_info_from_key_dispatch (self : iYTDL) (key : str) (w : World) :
  (len key = 11 →
     extract_info_from_key E self key w
     = (get_download_button E key, logs [EvGetDownloadButton key] w)
     ∧ cache_lookups (trace (extract_info_from_key E self key w).2)
       = cache_lookups (trace w))
  ∧ (len key ≠ 11 →
     (∃ rest,
        trace (extract_info_from_key E self key w).2
        = trace w ++ EvCacheGetUrl (cache self) key :: rest
        ∧ cache_lookups rest = 0%nat)
     ∧ cache_lookups (trace (extract_info_from_key E self key w).2)
       = S (cache_lookups (trace w))).
Proof.
  split; intros Hlen.
  - assert (Heq : extract_info_from_key E self key w
                  = (get_download_button E key,
                     logs [EvGetDownloadButton key] w)).
    { unfold extract_info_from_key. apply Z.eqb_eq in Hlen.
      rewrite Hlen. by run_m. }
    split; [done|]. rewrite Heq. simpl.
    rewrite cache_lookups_app. simpl. lia.
  - rewrite (extract_info_from_key_cached self key w Hlen).
    destruct (cache_rows w !! key) as [[|c u]|]; simpl;
      (split; [eexists; split; [reflexivity|done]
              |rewrite cache_lookups_app; simpl; lia]).
Qed.

(** C2. For a key of length other than 11 under which the cache holds
    nothing, the result is [None], nothing is raised, and the world is
    left as it was except for the record of the one lookup. *)
Theorem extract_info_from_key_miss (self : iYTDL) (key : str) (w : World) :
  len key ≠ 11 →
  cache_rows w !! key = None →
  extract_info_from_key E self key w
  = (Ok None, logs [EvCacheGetUrl (cache self) key] w).
Proof.
  intros Hlen Hmiss.
  rewrite (extract_info_from_key_cached self key w Hlen). by rewrite Hmiss.
Qed.

(** C10. For a key of length other than 11 whose cached URL is the empty
    string, the result is [None] and the world is changed by the record of
    the lookup only, so the resolve-by-URL entry point is not called; the
    outcome is the one of the same call in a world whose cache has no row
    for the key. *)
Theorem extract_info_from_key_empty_url (self : iYTDL) (key : str) (w : World) :
  len key ≠ 11 →
  cache_rows w !! key = Some [] →
  extract_info_from_key E self key w
  = (Ok None, logs [EvCacheGetUrl (cache self) key] w)
  ∧ (extract_info_from_key E self key w).1
    = (extract_info_from_key E self key
         (set_cache_rows (delete key (cache_rows w)) w)).1
  ∧ ∀ k u, EvGenericExtractor k u
           ∉ drop (length (trace w))
                  (trace (extract_info_from_key E self key w).2).
Proof.
  intros Hlen Hrow.
  rewrite !(extract_info_from_key_cached self key _ Hlen). rewrite Hrow.
  simpl. rewrite lookup_delete_eq. split; [done|]. split; [done|].
  intros k u. rewrite drop_app_length.
  intros Hin. apply list_elem_of_singleton in Hin. discriminate.
Qed.

End key_resolution.

Lemma extract_info_from_key_dispatch_witness :
  len vid = 11
  ∧ extract_info_from_key env_demo self_demo vid world_demo
    = (Ok (Some 1%nat), logs [EvGetDownloadButton vid] world_demo)
  ∧ len key_demo ≠ 11
  ∧ cache_lookups
      (trace (extract_info_from_key env_demo self_demo key_demo world_demo).2)
    = 1%nat.
Proof.
  split; [reflexivity|]. split.
  - apply (extract_info_from_key_dispatch env_demo self_demo vid world_demo).
    reflexivity.
  - split; [discriminate|].
    apply (extract_info_from_key_dispatch env_demo self_demo key_demo
             world_demo).
    discriminate.
Defined.

Lemma extract_info_from_key_miss_witness :
  extract_info_from_key env_demo self_demo key_unknown world_demo
  = (Ok None, logs [EvCacheGetUrl (cache self_demo) key_unknown] world_demo).
Proof.
  apply (extract_info_from_key_miss env_demo self_demo key_unknown world_demo).
  - discriminate.
  - vm_compute. reflexivity.
Defined.

Lemma extract_info_from_key_empty_url_witness :
  extract_info_from_key env_demo self_demo key_empty world_demo
  = (Ok None, logs [EvCacheGetUrl (cache self_demo) key_empty] world_demo).
Proof.
  apply (extract_info_from_key_empty_url env_demo self_demo key_empty
           world_demo).
  - discriminate.
  - vm_compute. reflexivity.
Defined.

(** ** Thumbnails *)

Section thumbnails.

Context {SR : Type} (E : Env SR).

Lemma probed_prefix (found : str → bool) (qs : list str) :
  probed found qs `prefix_of` qs.
Proof.
  induction qs as [|q qs IH]; simpl; [done|].
  destruct (found q).
  - by apply prefix_cons, prefix_nil.
  - by apply prefix_cons.
Qed.

Lemma thumb_link_nonempty (yt_id quality : str) : thumb_link yt_id quality ≠ [].
Proof. discriminate. Qed.

Lemma best_thumb_nonempty found yt_id dflt qs :
  dflt ≠ [] → best_thumb found yt_id dflt qs ≠ [].
Proof.
  intros Hd. unfold best_thumb.
  destruct (List.find found qs); [apply thumb_link_nonempty|done].
Qed.

Lemma get_cases (sid : nat) (link : str) (w : World) :
  ClientSession.get E sid link w
  = (http_fetch E link, logs [EvHttpGet sid link] w).
Proof. unfold ClientSession.get. by run_m. Qed.

(** The loop over any list of qualities, when every fetch answers. *)
Lemma probe_qualities_answered (self : iYTDL) (yt_id : str) (qs : list str) :
  Forall (λ q, answers E yt_id q = true) qs →
  ∀ w, probe_qualities E self yt_id qs w
       = (Ok (best_thumb (answers_200 E yt_id) yt_id (default_thumb self) qs),
          logs (probe_events (http self) yt_id
                  (probed (answers_200 E yt_id) qs)) w).
Proof.
  induction 1 as [|q qs Hq _ IH]; intros w.
  - simpl. unfold best_thumb. simpl. by rewrite logs_nil.
  - cbn [probe_qualities].
    unfold answers in Hq. unfold best_thumb in *. cbn [List.find probed].
    unfold answers_200 at 1 3.
    destruct (http_fetch E (thumb_link yt_id q)) as [status|e] eqn:Hf;
      [|done].
    erewrite bind_ok; [|rewrite get_cases, Hf; reflexivity].
    destruct (status =? 200); [done|].
    rewrite IH, logs_logs. reflexivity.
Qed.

(** The loop over any list of qualities, when a fetch raises. *)
Lemma probe_qualities_raises (self : iYTDL) (yt_id : str)
    (before : list str) (q : str) (after : list str) (e : exn) :
  Forall (λ q', answers E yt_id q' = true
                ∧ answers_200 E yt_id q' = false) before →
  http_fetch E (thumb_link yt_id q) = Raise e →
  ∀ w, probe_qualities E self yt_id (before ++ q :: after) w
       = (Raise e,
          logs (probe_events (http self) yt_id (before ++ [q])) w).
Proof.
  intros Hb Hq. induction Hb as [|q' before [Ha Hn] _ IH]; intros w.
  - cbn [app probe_qualities].
    erewrite bind_raise; [reflexivity|]. by rewrite get_cases, Hq.
  - cbn [app probe_qualities].
    unfold answers in Ha. unfold answers_200 in Hn.
    destruct (http_fetch E (thumb_link yt_id q')) as [status|e'] eqn:Hf;
      [|done].
    erewrite bind_ok; [|rewrite get_cases, Hf; reflexivity].
    rewrite Hn, IH, logs_logs. reflexivity.
Qed.

(** C3, as the code has it.  When every fetch answers, [get_ytthumb]
    probes the qualities in the order maxresdefault, hqdefault, sddefault,
    mqdefault, default, stops at the first one whose status is exactly
    200 and returns its link; when none has status 200 it returns the
    configured default thumbnail.  The result is a string, and it is not
    empty unless the configured default is. *)
Theorem get_ytthumb_first_200 (self : iYTDL) (yt_id : str) (w : World) :
  Forall (λ q, answers E yt_id q = true) QUALITIES →
  get_ytthumb E self yt_id w
  = (Ok (best_thumb (answers_200 E yt_id) yt_id (default_thumb self)
           QUALITIES),
     logs (probe_events (http self) yt_id
             (probed (answers_200 E yt_id) QUALITIES)) w)
  ∧ probed (answers_200 E yt_id) QUALITIES `prefix_of` QUALITIES
  ∧ (default_thumb self ≠ [] →
     best_thumb (answers_200 E yt_id) yt_id (default_thumb self) QUALITIES
     ≠ []).
Proof.
  intros Hans. split; [|split].
  - unfold get_ytthumb. by apply probe_qualities_answered.
  - apply probed_prefix.
  - apply best_thumb_nonempty.
Qed.

(** C4, as the code has it.  A fetch that raises ends [get_ytthumb]: when
    the qualities before [q] answered with a status other than 200 and
    the fetch for [q] raises, that exception reaches the caller and no
    quality after [q] is probed.  Only an answer with a status other than
    200 makes the loop go on to the next quality. *)
Theorem get_ytthumb_transport_failure (self : iYTDL) (yt_id : str)
    (w : World) (before : list str) (q : str) (after : list str)
    (e : exn) :
  QUALITIES = before ++ q :: after →
  Forall (λ q', answers E yt_id q' = true
                ∧ answers_200 E yt_id q' = false) before →
  http_fetch E (thumb_link yt_id q) = Raise e →
  get_ytthumb E self yt_id w
  = (Raise e, logs (probe_events (http self) yt_id (before ++ [q])) w).
Proof.
  intros Hqs Hb Hq. unfold get_ytthumb. rewrite Hqs.
  by apply probe_qualities_raises.
Qed.

End thumbnails.

Lemma get_ytthumb_first_200_witness :
  Forall (λ q, answers env_demo vid q = true) QUALITIES
  ∧ (get_ytthumb env_demo self_demo vid world_demo).1
    = Ok (thumb_link vid (lit "sddefault")).
Proof.
  assert (H : Forall (λ q, answers env_demo vid q = true) QUALITIES).
  { repeat constructor. }
  split; [exact H|].
  pose proof (get_ytthumb_first_200 env_demo self_demo vid world_demo H)
    as [Heq _].
  rewrite Heq. vm_compute. reflexivity.
Defined.

(** C3, as the spec has it, fails.  With status 204 for maxresdefault and
    200 for hqdefault, the first quality with a 200-class answer is
    maxresdefault, yet the link of hqdefault is returned; and with an empty
    default thumbnail configured and no quality found, the empty string is
    returned. *)
Lemma get_ytthumb_2xx_counterexample :
  answers_2xx env_204 vid (lit "maxresdefault") = true
  ∧ (get_ytthumb env_204 self_demo vid world_demo).1
    = Ok (thumb_link vid (lit "hqdefault"))
  ∧ (get_ytthumb env_204 self_demo vid world_demo).1
    ≠ Ok (best_thumb (answers_2xx env_204 vid) vid (default_thumb self_demo)
            QUALITIES)
  ∧ (get_ytthumb env_404 self_no_thumb vid world_demo).1 = Ok [].
Proof.
  split; [reflexivity|]. split; [vm_compute; reflexivity|].
  split; [|vm_compute; reflexivity].
  vm_compute. discriminate.
Qed.

Lemma get_ytthumb_transport_failure_witness :
  (get_ytthumb env_transport self_demo vid world_demo).1
  = Raise (CollaboratorError (lit "ClientConnectorError")).
Proof.
  rewrite (get_ytthumb_transport_failure env_transport self_demo vid
             world_demo [lit "maxresdefault"] (lit "hqdefault")
             [lit "sddefault"; lit "mqdefault"; lit "default"]
             (CollaboratorError (lit "ClientConnectorError"))).
  - reflexivity.
  - reflexivity.
  - repeat constructor.
  - vm_compute. reflexivity.
Defined.

(** C4, as the spec has it, fails.  The fetch for hqdefault fails in
    transport while sddefault would have been found: [get_ytthumb] raises
    the failure instead of going on to sddefault. *)
Lemma get_ytthumb_raises_counterexample :
  answers_200 env_transport vid (lit "sddefault") = true
  ∧ is_ok (get_ytthumb env_transport self_demo vid world_demo).1 = false
  ∧ (get_ytthumb env_transport self_demo vid world_demo).1
    = Raise (CollaboratorError (lit "ClientConnectorError")).
Proof. vm_compute. repeat split; reflexivity. Qed.

(** ** Tool probing *)

Section toolchain.

Context {SR : Type} (E : Env SR).

(** [_check_ffmpeg] by the exit status of the version query of ffmpeg. *)
Lemma _check_ffmpeg_cases (self : iYTDL) (w : World) :
  _check_ffmpeg E self w =
  if query_status E (ffmpeg_tool self) =? 0 then
    (Ok (after_probe E self w), logs (probe_trace E self w) w)
  else
    (Raise (ValueError (lit "'" ++ fmt (ffmpeg_tool self)
                        ++ lit "' was not Found !")),
     logs [EvRunCommand (version_query (ffmpeg_tool self))] w).
Proof.
  unfold _check_ffmpeg, probe_trace, after_probe, ffprobe_candidate,
    ffmpeg_tool, query_status, version_query, run, os.is_file.
  destruct (_ffmpeg self) as [s|p]; run_m.
  - destruct ((run_command E _).2 =? 0); simpl; [|done].
    rewrite logs_logs. simpl.
    by destruct ((run_command E _).2 =? 0).
  - destruct ((run_command E _).2 =? 0); simpl; [|done].
    destruct (fsys.is_file (fs w) _); simpl; [|done].
    rewrite logs_logs. simpl.
    by destruct ((run_command E _).2 =? 0).
Qed.

End toolchain.

(** ** Construction *)

Section construction.

Context {SR : Type} (E : Env SR).

Lemma session_step (a : Args) (w : World) :
  match arg_session a with
  | Some s => ret s
  | None => ClientSession.new
  end w = (Ok (session_of a w).1, (session_of a w).2).
Proof.
  unfold session_of, ClientSession.new.
  destruct (arg_session a); by run_m.
Qed.

Lemma mkdir_step (p : Path) (w : World) :
  os.mkdir_parents_exist_ok p w
  = ((fsys.mkdir p (fs w)).1, set_fs (fsys.mkdir p (fs w)).2 w).
Proof.
  unfold os.mkdir_parents_exist_ok. by destruct (fsys.mkdir p (fs w)).
Qed.

(** The constructor, step by step: the outcome of the two [mkdir] calls,
    of the two file checks and of the initialisation of the extractor
    decide the result. *)
Lemma __init___cases (a : Args) (w : World) :
  __init__ E a w =
  let w0 := (session_of a w).2 in
  let cp := pathlib.of_str (arg_cache_path a) in
  let m1 := fsys.mkdir cp (fs w0) in
  let m2 := fsys.mkdir (pathlib.of_str (arg_download_path a)) m1.2 in
  let fp := pathlib.of_str (arg_ffmpeg_location a) in
  match m1.1 with
  | Raise e => (Raise e, set_fs m1.2 w0)
  | Ok _ =>
      if fsys.is_file m1.2 cp then
        (Raise (TypeError (lit "'" ++ arg_cache_path a
                  ++ lit "' expected a Directory got a File instead")),
         set_fs m1.2 w0)
      else
        match m2.1 with
        | Raise e => (Raise e, set_fs m2.2 w0)
        | Ok _ =>
            if bool_decide (arg_ffmpeg_location a ≠ lit "ffmpeg")
               && negb (fsys.is_file m2.2 fp)
            then (Raise (FileNotFoundError fp), set_fs m2.2 w0)
            else match extractor_init E (arg_silent a) with
                 | Raise e => (Raise e, set_fs m2.2 w0)
                 | Ok _ => (Ok (instance_of a w), set_fs m2.2 w0)
                 end
        end
  end.
Proof.
  unfold __init__. cbv zeta.
  erewrite bind_ok; [|apply session_step].
  set (w0 := (session_of a w).2).
  set (cp := pathlib.of_str (arg_cache_path a)).
  unfold mbind at 1, M_bind at 1, bind at 1. rewrite mkdir_step.
  destruct (fsys.mkdir cp (fs w0)) as [[[]|e] fs1]; simpl; [|done].
  unfold os.is_file. run_m.
  destruct (fsys.is_file fs1 cp); [done|].
  rewrite mkdir_step. simpl.
  destruct (fsys.mkdir (pathlib.of_str (arg_download_path a)) fs1)
    as [[[]|e] fs2]; simpl; [|done].
  unfold instance_of.
  destruct (bool_decide (arg_ffmpeg_location a ≠ lit "ffmpeg")); simpl.
  - destruct (fsys.is_file fs2 _); simpl; [|done].
    by destruct (extractor_init E (arg_silent a)) as [[]|].
  - by destruct (extractor_init E (arg_silent a)) as [[]|].
Qed.

End construction.

(** ** Start and stop *)

Section lifecycle.

Context {SR : Type} (E : Env SR).

Lemma fs_session_of (a : Args) (w : World) : fs (session_of a w).2 = fs w.
Proof. unfold session_of. by destruct (arg_session a). Qed.

Lemma cache_after_probe (self : iYTDL) (w : World) :
  cache (after_probe E self w) = cache self.
Proof.
  unfold after_probe. destruct (ffprobe_candidate E self w); [|done].
  by destruct (query_status E _ =? 0).
Qed.

Lemma _init_cases (db : Path) (w : World) :
  ∃ w', AioSQLiteDB._init db w = (Ok tt, w')
        ∧ cache_conn w' = true
        ∧ sessions w' = sessions w
        ∧ trace w' = trace w ++ [EvCacheInit db].
Proof.
  unfold AioSQLiteDB._init. run_m.
  destruct (fsys.node_at (fs w) db); eexists; split; by try reflexivity.
Qed.

(** [start] when the primary tool answers its version query. *)
Lemma start_ok (self : iYTDL) (w : World) :
  query_status E (ffmpeg_tool self) = 0 →
  ∃ w', start E self w = (Ok (after_probe E self w), w')
        ∧ cache_conn w' = true
        ∧ trace w' = trace w ++ probe_trace E self w
                             ++ [EvCacheInit (cache self)].
Proof.
  intros Hq. unfold start.
  erewrite bind_ok;
    [|rewrite _check_ffmpeg_cases; apply Z.eqb_eq in Hq; rewrite Hq;
      reflexivity].
  destruct (_init_cases (cache (after_probe E self w))
              (logs (probe_trace E self w) w)) as (w' & H1 & H2 & _ & H4).
  exists w'. erewrite bind_ok; [|exact H1]. split; [done|]. split; [done|].
  rewrite H4, cache_after_probe. simpl. by rewrite <- app_assoc.
Qed.

(** [start] when the primary tool does not answer its version query. *)
Lemma start_raises (self : iYTDL) (w : World) :
  query_status E (ffmpeg_tool self) ≠ 0 →
  start E self w
  = (Raise (ValueError (lit "'" ++ fmt (ffmpeg_tool self)
                        ++ lit "' was not Found !")),
     logs [EvRunCommand (version_query (ffmpeg_tool self))] w).
Proof.
  intros Hq. unfold start. erewrite bind_raise; [reflexivity|].
  rewrite _check_ffmpeg_cases. apply Z.eqb_neq in Hq. by rewrite Hq.
Qed.

(** Construction succeeds when the directories can be made, the ffmpeg
    location is the default or an existing file, and the extractor
    initialises. *)
Lemma __init___ok (a : Args) (w : World) :
  is_ok (fsys.mkdir (pathlib.of_str (arg_cache_path a)) (fs w)).1 = true →
  is_ok (fsys.mkdir (pathlib.of_str (arg_download_path a))
           (fsys.mkdir (pathlib.of_str (arg_cache_path a)) (fs w)).2).1
  = true →
  (arg_ffmpeg_location a = lit "ffmpeg"
   ∨ fsys.is_file (fs w) (pathlib.of_str (arg_ffmpeg_location a)) = true) →
  is_ok (extractor_init E (arg_silent a)) = true →
  ∃ w', __init__ E a w = (Ok (instance_of a w), w')
        ∧ sessions w' = sessions (session_of a w).2
        ∧ trace w' = trace (session_of a w).2
        ∧ cache_conn w' = cache_conn w.
Proof.
  intros H1 H2 Hff Hex. rewrite __init___cases. cbv zeta.
  rewrite fs_session_of.
  pose proof (fsys_facts.mkdir_ok _ _ H1) as Hdir.
  apply fsys_facts.dir_not_file in Hdir.
  destruct (fsys.mkdir (pathlib.of_str (arg_cache_path a)) (fs w))
    as [[[]|e1] fs1] eqn:Hm1; simpl in *; [|done].
  rewrite Hdir.
  pose proof (fsys_facts.mkdir_is_file (pathlib.of_str (arg_download_path a))
                fs1 (pathlib.of_str (arg_ffmpeg_location a))) as Hpres2.
  pose proof (fsys_facts.mkdir_is_file (pathlib.of_str (arg_cache_path a))
                (fs w) (pathlib.of_str (arg_ffmpeg_location a))) as Hpres1.
  rewrite Hm1 in Hpres1. simpl in Hpres1.
  destruct (fsys.mkdir (pathlib.of_str (arg_download_path a)) fs1)
    as [[[]|e2] fs2]; simpl in *; [|done].
  assert (Hloc : bool_decide (arg_ffmpeg_location a ≠ lit "ffmpeg")
                  && negb (fsys.is_file fs2
                             (pathlib.of_str (arg_ffmpeg_location a)))
                  = false).
  { destruct Hff as [Hd|Hf].
    - rewrite bool_decide_eq_false_2; [done|]. by intros Hn.
    - rewrite Hpres2, Hpres1, Hf. apply andb_false_r. }
  rewrite Hloc.
  destruct (extractor_init E (arg_silent a)) as [[]|]; [|done].
  eexists. split; [reflexivity|].
  unfold session_of. by destruct (arg_session a).
Qed.

(** Construction with a custom ffmpeg location that is not a file. *)
Lemma __init___ffmpeg_missing (a : Args) (w : World) :
  arg_ffmpeg_location a ≠ lit "ffmpeg" →
  fsys.is_file (fs w) (pathlib.of_str (arg_ffmpeg_location a)) = false →
  is_ok (__init__ E a w).1 = false
  ∧ (is_ok (fsys.mkdir (pathlib.of_str (arg_cache_path a)) (fs w)).1 = true →
     is_ok (fsys.mkdir (pathlib.of_str (arg_download_path a))
              (fsys.mkdir (pathlib.of_str (arg_cache_path a)) (fs w)).2).1
     = true →
     (__init__ E a w).1
     = Raise (FileNotFoundError (pathlib.of_str (arg_ffmpeg_location a)))).
Proof.
  intros Hne Hnf. rewrite __init___cases. cbv zeta.
  rewrite fs_session_of.
  pose proof (fsys_facts.mkdir_ok (pathlib.of_str (arg_cache_path a)) (fs w))
    as Hdir.
  pose proof (fsys_facts.mkdir_is_file (pathlib.of_str (arg_cache_path a))
                (fs w) (pathlib.of_str (arg_ffmpeg_location a))) as Hpres1.
  destruct (fsys.mkdir (pathlib.of_str (arg_cache_path a)) (fs w))
    as [[[]|e1] fs1]; simpl in *; [|done].
  specialize (Hdir eq_refl). apply fsys_facts.dir_not_file in Hdir.
  rewrite Hdir.
  pose proof (fsys_facts.mkdir_is_file (pathlib.of_str (arg_download_path a))
                fs1 (pathlib.of_str (arg_ffmpeg_location a))) as Hpres2.
  destruct (fsys.mkdir (pathlib.of_str (arg_download_path a)) fs1)
    as [[[]|e2] fs2]; simpl in *; [|done].
  rewrite Hpres2, Hpres1, Hnf.
  rewrite bool_decide_eq_true_2 by done. simpl. done.
Qed.

(** C5. The probe of the primary tool is fatal in two ways.  In the
    constructor: a location other than ["ffmpeg"] at which there is no
    file makes construction raise, with [FileNotFoundError] of that path
    once the cache and download directories could be made.  In [start]:
    a non-zero exit status of the version query raises [ValueError]
    before the cache is initialised.  And in no other way: with the
    default location or an existing file the constructor returns the
    instance, and with exit status 0 [start] returns. *)
Theorem primary_tool_probe_fatal
    (a : Args) (w : World) (self : iYTDL) (w2 : World) :
  (arg_ffmpeg_location a ≠ lit "ffmpeg" →
   fsys.is_file (fs w) (pathlib.of_str (arg_ffmpeg_location a)) = false →
   is_ok (__init__ E a w).1 = false
   ∧ (is_ok (fsys.mkdir (pathlib.of_str (arg_cache_path a)) (fs w)).1 = true →
      is_ok (fsys.mkdir (pathlib.of_str (arg_download_path a))
               (fsys.mkdir (pathlib.of_str (arg_cache_path a)) (fs w)).2).1
      = true →
      (__init__ E a w).1
      = Raise (FileNotFoundError (pathlib.of_str (arg_ffmpeg_location a)))))
  ∧ (query_status E (ffmpeg_tool self) ≠ 0 →
     start E self w2
     = (Raise (ValueError (lit "'" ++ fmt (ffmpeg_tool self)
                           ++ lit "' was not Found !")),
        logs [EvRunCommand (version_query (ffmpeg_tool self))] w2))
  ∧ ((arg_ffmpeg_location a = lit "ffmpeg"
      ∨ fsys.is_file (fs w) (pathlib.of_str (arg_ffmpeg_location a)) = true) →
     is_ok (fsys.mkdir (pathlib.of_str (arg_cache_path a)) (fs w)).1 = true →
     is_ok (fsys.mkdir (pathlib.of_str (arg_download_path a))
              (fsys.mkdir (pathlib.of_str (arg_cache_path a)) (fs w)).2).1
     = true →
     is_ok (extractor_init E (arg_silent a)) = true →
     (__init__ E a w).1 = Ok (instance_of a w))
  ∧ (query_status E (ffmpeg_tool self) = 0 →
     (start E self w2).1 = Ok (after_probe E self w2)).
Proof.
  split; [apply __init___ffmpeg_missing|].
  split; [apply start_raises|].
  split.
  - intros Hff H1 H2 Hex.
    destruct (__init___ok a w H1 H2 Hff Hex) as (w' & Heq & _).
    by rewrite Heq.
  - intros Hq. destruct (start_ok self w2 Hq) as (w' & Heq & _).
    by rewrite Heq.
Qed.

(** C6. A failing probe of the secondary tool is not fatal.  When ffmpeg
    answers its version query, [start] returns, whatever the probe of
    ffprobe gives: with no ffprobe file next to a custom ffmpeg, or with a
    non-zero exit status of its version query, the instance is returned
    as it was, without the [_ffprobe] attribute being set; the attribute
    is set to the candidate exactly when its version query exits with
    status 0. *)
Theorem ffprobe_probe_not_fatal (self : iYTDL) (w : World) :
  query_status E (ffmpeg_tool self) = 0 →
  (∃ w', start E self w = (Ok (after_probe E self w), w')
         ∧ cache_conn w' = true
         ∧ trace w' = trace w ++ probe_trace E self w
                              ++ [EvCacheInit (cache self)])
  ∧ (ffprobe_candidate E self w = None → after_probe E self w = self)
  ∧ (∀ fp, ffprobe_candidate E self w = Some fp →
           query_status E fp ≠ 0 → after_probe E self w = self)
  ∧ (∀ fp, ffprobe_candidate E self w = Some fp →
           query_status E fp = 0 →
           after_probe E self w = set__ffprobe fp self)
  ∧ (_ffprobe (after_probe E self w) ≠ _ffprobe self →
     ∃ fp, ffprobe_candidate E self w = Some fp
           ∧ query_status E fp = 0
           ∧ _ffprobe (after_probe E self w) = Some fp).
Proof.
  intros Hq. split; [by apply start_ok|].
  unfold after_probe.
  split; [by intros ->|].
  split; [intros fp -> Hn; apply Z.eqb_neq in Hn; by rewrite Hn|].
  split; [intros fp -> Hz; apply Z.eqb_eq in Hz; by rewrite Hz|].
  destruct (ffprobe_candidate E self w) as [fp|]; [|done].
  destruct (query_status E fp =? 0) eqn:Hs; [|done].
  intros _. exists fp. apply Z.eqb_eq in Hs. done.
Qed.

End lifecycle.

Lemma primary_tool_probe_fatal_witness :
  (arg_ffmpeg_location args_ffmpeg_missing ≠ lit "ffmpeg"
   ∧ fsys.is_file (fs world_demo)
       (pathlib.of_str (arg_ffmpeg_location args_ffmpeg_missing)) = false
   ∧ (__init__ env_no_ffmpeg args_ffmpeg_missing world_demo).1
     = Raise (FileNotFoundError (pathlib.of_str (lit "bin/ffmpeg"))))
  ∧ (query_status env_no_ffmpeg (ffmpeg_tool self_demo) ≠ 0
     ∧ (start env_no_ffmpeg self_demo world_demo).1
       = Raise (ValueError (lit "'ffmpeg' was not Found !"))).
Proof.
  pose proof (primary_tool_probe_fatal env_no_ffmpeg args_ffmpeg_missing
                world_demo self_demo world_demo) as (Hinit & Hstart & _).
  assert (H1 : arg_ffmpeg_location args_ffmpeg_missing ≠ lit "ffmpeg")
    by (vm_compute; discriminate).
  assert (H2 : fsys.is_file (fs world_demo)
                 (pathlib.of_str (arg_ffmpeg_location args_ffmpeg_missing))
               = false) by (vm_compute; reflexivity).
  assert (H3 : query_status env_no_ffmpeg (ffmpeg_tool self_demo) ≠ 0)
    by (vm_compute; discriminate).
  split.
  - split; [exact H1|]. split; [exact H2|].
    destruct (Hinit H1 H2) as [_ Hexn].
    apply Hexn; vm_compute; reflexivity.
  - split; [exact H3|]. rewrite (Hstart H3). reflexivity.
Defined.

Lemma ffprobe_probe_not_fatal_witness :
  query_status env_no_ffprobe (ffmpeg_tool self_demo) = 0
  ∧ query_status env_no_ffprobe (inl (lit "ffprobe")) ≠ 0
  ∧ (start env_no_ffprobe self_demo world_demo).1 = Ok self_demo.
Proof.
  assert (H : query_status env_no_ffprobe (ffmpeg_tool self_demo) = 0)
    by (vm_compute; reflexivity).
  split; [exact H|]. split; [vm_compute; discriminate|].
  destruct (ffprobe_probe_not_fatal env_no_ffprobe self_demo world_demo H)
    as ((w' & Heq & _) & _).
  rewrite Heq. vm_compute. reflexivity.
Defined.

Section stopping.

Context {SR : Type} (E : Env SR).

Lemma stop_cases (self : iYTDL) (w : World) :
  stop self w = (Ok tt, after_stop self w).
Proof.
  unfold stop, after_stop, ClientSession.closed, ClientSession.close,
    AioSQLiteDB.close.
  run_m. destruct (default true (sessions w !! http self)); simpl; [done|].
  unfold set_cache_conn, set_sessions, logs. simpl.
  by rewrite <- app_assoc.
Qed.

Lemma after_stop_closed (self : iYTDL) (w : World) :
  default true (sessions (after_stop self w) !! http self) = true.
Proof.
  unfold after_stop.
  destruct (sessions w !! http self) as [[]|] eqn:Hs; simpl.
  - by rewrite Hs.
  - rewrite list_lookup_insert_eq; [done|]. by eapply lookup_lt_Some.
  - by rewrite Hs.
Qed.

Lemma after_stop_twice (self : iYTDL) (w : World) :
  after_stop self (after_stop self w)
  = logs [EvCacheClose (cache self)] (after_stop self w).
Proof.
  unfold after_stop at 1. rewrite after_stop_closed.
  unfold after_stop.
  by destruct (default true (sessions w !! http self)).
Qed.

(** C7. [stop] returns without raising from any state of the world, so
    also when [start] was never called, and a second [stop] after it
    returns as well; the second call finds the session closed and only
    closes the cache storage once more. *)
Theorem stop_idempotent (self : iYTDL) (w : World) :
  stop self w = (Ok tt, after_stop self w)
  ∧ stop self (after_stop self w)
    = (Ok tt, logs [EvCacheClose (cache self)] (after_stop self w))
  ∧ cache_conn (after_stop self w) = false.
Proof.
  split; [apply stop_cases|].
  split; [by rewrite stop_cases, after_stop_twice|].
  unfold after_stop.
  by destruct (default true (sessions w !! http self)).
Qed.

(** What a successful construction returns. *)
Lemma __init___inv (a : Args) (w : World) (self : iYTDL) (w1 : World) :
  __init__ E a w = (Ok self, w1) →
  self = instance_of a w
  ∧ sessions w1 = sessions (session_of a w).2
  ∧ trace w1 = trace (session_of a w).2
  ∧ cache_conn w1 = cache_conn w.
Proof.
  rewrite __init___cases. cbv zeta.
  destruct (fsys.mkdir _ (fs (session_of a w).2)) as [[[]|e1] fs1];
    simpl; [|done].
  destruct (fsys.is_file fs1 _); [done|].
  destruct (fsys.mkdir _ fs1) as [[[]|e2] fs2]; simpl; [|done].
  destruct (_ && _); [done|].
  destruct (extractor_init E (arg_silent a)) as [[]|]; [|done].
  intros [= <- <-]. simpl.
  unfold session_of. by destruct (arg_session a).
Qed.

(** C8, as the code has it.  An instance constructed with a session of
    the caller holds that very session, and [stop] closes it whenever it
    is open: no ownership is recorded.  A session that is closed already
    is not closed again.  The cache storage is closed in either case. *)
Theorem stop_closes_supplied_session
    (a : Args) (w : World) (sid : nat) (self : iYTDL) (w1 : World) :
  arg_session a = Some sid →
  __init__ E a w = (Ok self, w1) →
  http self = sid
  ∧ sessions w1 = sessions w
  ∧ stop self w1 = (Ok tt, after_stop self w1)
  ∧ cache_conn (after_stop self w1) = false
  ∧ (sessions w !! sid = Some false →
     sessions (after_stop self w1) !! sid = Some true
     ∧ trace (after_stop self w1)
       = trace w1 ++ [EvHttpClose sid; EvCacheClose (cache self)])
  ∧ (sessions w !! sid = Some true →
     sessions (after_stop self w1) = sessions w
     ∧ trace (after_stop self w1)
       = trace w1 ++ [EvCacheClose (cache self)]).
Proof.
  intros Hs Hinit.
  destruct (__init___inv a w self w1 Hinit) as (-> & Hses & _ & _).
  unfold session_of in Hses. rewrite Hs in Hses. simpl in Hses.
  assert (Hhttp : http (instance_of a w) = sid).
  { unfold instance_of, session_of. simpl. by rewrite Hs. }
  split; [done|]. split; [done|]. split; [apply stop_cases|].
  unfold after_stop. rewrite Hhttp, Hses.
  split; [by destruct (default true (sessions w !! sid))|].
  split; intros Hopen; rewrite Hopen; simpl; [|done].
  split; [|done].
  rewrite list_lookup_insert_eq; [done|]. by eapply lookup_lt_Some.
Qed.

(** C9, as the code has it.  When [cache_path] names an existing plain
    file, [mkdir(exist_ok=True, parents=True)] raises before the file
    check is reached: construction ends with an [OSError] of [mkdir],
    which is [FileExistsError] when the directories above the file exist,
    and the [TypeError] of the source is never raised.  Nothing but the
    creation of the session precedes the failure. *)
Theorem init_cache_path_is_file (a : Args) (w : World) :
  fsys.is_file (fs w) (pathlib.of_str (arg_cache_path a)) = true →
  (∃ e w', __init__ E a w = (Raise e, w')
           ∧ is_OSError e = true
           ∧ (∀ msg, e ≠ TypeError msg)
           ∧ trace w' = trace (session_of a w).2)
  ∧ (Forall (λ q, fsys.is_dir (fs w) q = true)
            (fsys.ancestors (pathlib.of_str (arg_cache_path a))) →
     __init__ E a w
     = (Raise (FileExistsError (pathlib.of_str (arg_cache_path a))),
        (session_of a w).2)).
Proof.
  intros Hf. split.
  - rewrite __init___cases. cbv zeta. rewrite fs_session_of.
    pose proof (fsys_facts.mkdir_on_file _ _ Hf) as Hfail.
    pose proof (fsys_facts.mkdir_OSError
                  (pathlib.of_str (arg_cache_path a)) (fs w)) as Hos.
    destruct (fsys.mkdir (pathlib.of_str (arg_cache_path a)) (fs w))
      as [[[]|e] fs1]; simpl in *; [done|].
    exists e. eexists. split; [reflexivity|].
    specialize (Hos e eq_refl). split; [done|]. split; [|done].
    intros msg ->. discriminate.
  - intros Hanc. rewrite __init___cases. cbv zeta. rewrite fs_session_of.
    rewrite (fsys_facts.mkdir_on_file_exists _ _ Hf Hanc). simpl.
    rewrite <- (fs_session_of a w). by destruct (session_of a w).2.
Qed.

End stopping.

Lemma stop_closes_supplied_session_witness :
  arg_session args_external_session = Some 0%nat
  ∧ (∃ self w1,
       __init__ env_demo args_external_session world_demo = (Ok self, w1)
       ∧ sessions world_demo !! 0%nat = Some false
       ∧ sessions (after_stop self w1) !! 0%nat = Some true).
Proof.
  split; [reflexivity|].
  assert (Hinit : __init__ env_demo args_external_session world_demo
                  = (Ok (instance_of args_external_session world_demo),
                     (__init__ env_demo args_external_session world_demo).2))
    by (vm_compute; reflexivity).
  eexists. eexists. split; [exact Hinit|]. split; [reflexivity|].
  apply (stop_closes_supplied_session env_demo args_external_session
           world_demo 0%nat _ _ eq_refl Hinit).
  reflexivity.
Defined.

(** C8, as the spec has it, fails.  The caller constructs the instance with
    its own open session; after [stop] that session is closed. *)
Lemma stop_external_session_counterexample :
  ∃ self w1 w2,
    arg_session args_external_session = Some 0%nat
    ∧ __init__ env_demo args_external_session world_demo = (Ok self, w1)
    ∧ http self = 0%nat
    ∧ sessions w1 !! 0%nat = Some false
    ∧ stop self w1 = (Ok tt, w2)
    ∧ sessions w2 !! 0%nat = Some true
    ∧ EvHttpClose 0%nat ∈ trace w2.
Proof.
  eexists. eexists. eexists.
  split; [reflexivity|].
  split; [vm_compute; reflexivity|].
  split; [reflexivity|]. split; [reflexivity|].
  split; [vm_compute; reflexivity|].
  split; [reflexivity|].
  apply list_elem_of_In. vm_compute. auto.
Qed.

Lemma init_cache_path_is_file_witness :
  fsys.is_file (fs world_demo)
    (pathlib.of_str (arg_cache_path args_cache_is_file)) = true
  ∧ (__init__ env_demo args_cache_is_file world_demo).1
    = Raise (FileExistsError (pathlib.of_str (lit "cache.db"))).
Proof.
  assert (Hf : fsys.is_file (fs world_demo)
                 (pathlib.of_str (arg_cache_path args_cache_is_file)) = true)
    by (vm_compute; reflexivity).
  split; [exact Hf|].
  destruct (init_cache_path_is_file env_demo args_cache_is_file world_demo Hf)
    as [_ Hex].
  rewrite Hex; [reflexivity|]. vm_compute. constructor.
Defined.

(** ** Further properties of key resolution *)

Section key_resolution_more.

Context {SR : Type} (E : Env SR).

(** X1. A key of length other than 11 under which the cache holds a
    non-empty URL is resolved through the resolve-by-URL entry point, called
    once with the key itself and the stored URL; what that entry point
    returns or raises is the result, and nothing but the lookup and the call
    is recorded. *)
Theorem extract_info_from_key_hit (self : iYTDL) (key url : str) (w : World) :
  len key ≠ 11 →
  cache_rows w !! key = Some url →
  url ≠ [] →
  extract_info_from_key E self key w
  = (generic_extractor E key url,
     logs [EvCacheGetUrl (cache self) key; EvGenericExtractor key url] w).
Proof.
  intros Hlen Hrow Hne.
  rewrite (extract_info_from_key_cached E self key w Hlen), Hrow.
  by destruct url.
Qed.


End key_resolution_more.

Lemma extract_info_from_key_hit_witness :
  len key_demo ≠ 11
  ∧ cache_rows world_demo !! key_demo = Some url_demo
  ∧ extract_info_from_key env_demo self_demo key_demo world_demo
    = (Ok (Some 2%nat),
       logs [EvCacheGetUrl (cache self_demo) key_demo;
             EvGenericExtractor key_demo url_demo] world_demo).
Proof.
  assert (H1 : len key_demo ≠ 11) by discriminate.
  assert (H2 : cache_rows world_demo !! key_demo = Some url_demo)
    by (vm_compute; reflexivity).
  split; [exact H1|]. split; [exact H2|].
  apply (extract_info_from_key_hit env_demo self_demo key_demo url_demo
           world_demo H1 H2).
  discriminate.
Defined.

(** ** Further properties of the thumbnail probe *)

Section thumbnails_more.

Context {SR : Type} (E : Env SR).

Lemma probe_qualities_found (self : iYTDL) (yt_id : str)
    (before : list str) (q : str) (after : list str) :
  Forall (λ q', answers E yt_id q' = true
                ∧ answers_200 E yt_id q' = false) before →
  answers_200 E yt_id q = true →
  ∀ w, probe_qualities E self yt_id (before ++ q :: after) w
       = (Ok (thumb_link yt_id q),
          logs (probe_events (http self) yt_id (before ++ [q])) w).
Proof.
  intros Hb Hq. induction Hb as [|q' before [Ha Hn] _ IH]; intros w.
  - cbn [app probe_qualities]. unfold answers_200 in Hq.
    destruct (http_fetch E (thumb_link yt_id q)) as [status|e] eqn:Hf;
      [|done].
    erewrite bind_ok; [|rewrite get_cases, Hf; reflexivity].
    by rewrite Hq.
  - cbn [app probe_qualities].
    unfold answers in Ha. unfold answers_200 in Hn.
    destruct (http_fetch E (thumb_link yt_id q')) as [status|e'] eqn:Hf;
      [|done].
    erewrite bind_ok; [|rewrite get_cases, Hf; reflexivity].
    rewrite Hn, IH, logs_logs. reflexivity.
Qed.

Lemma probe_qualities_effects (self : iYTDL) (yt_id : str) (qs : list str) :
  ∀ w, (probe_qualities E self yt_id qs w).2
       = logs (probe_events (http self) yt_id
                 (probed (ends_loop E yt_id) qs)) w.
Proof.
  induction qs as [|q qs IH]; intros w.
  - simpl. by rewrite logs_nil.
  - cbn [probe_qualities probed].
    unfold ends_loop at 1, answers, answers_200.
    destruct (http_fetch E (thumb_link yt_id q)) as [status|e] eqn:Hf.
    + erewrite bind_ok; [|rewrite get_cases, Hf; reflexivity].
      simpl. destruct (status =? 200); [done|].
      rewrite IH, logs_logs. reflexivity.
    + erewrite bind_raise; [|rewrite get_cases, Hf; reflexivity]. done.
Qed.

Lemma probed_length (found : str → bool) (qs : list str) :
  qs ≠ [] → (1 ≤ length (probed found qs) ≤ length qs)%nat.
Proof.
  intros Hne. destruct qs as [|q qs]; [done|]. clear Hne.
  pose proof (prefix_length _ _ (probed_prefix found (q :: qs))) as Hle.
  simpl in *. destruct (found q); simpl in *; lia.
Qed.

Lemma probe_qualities_sound (self : iYTDL) (yt_id : str) (qs : list str) :
  ∀ w r, (probe_qualities E self yt_id qs w).1 = Ok r →
         r = default_thumb self
         ∨ ∃ q, q ∈ qs ∧ r = thumb_link yt_id q
                ∧ http_fetch E (thumb_link yt_id q) = Ok 200.
Proof.
  induction qs as [|q qs IH]; intros w r.
  - simpl. intros [= <-]. by left.
  - cbn [probe_qualities].
    destruct (http_fetch E (thumb_link yt_id q)) as [status|e] eqn:Hf.
    + erewrite bind_ok; [|rewrite get_cases, Hf; reflexivity].
      destruct (status =? 200) eqn:Hs.
      * simpl. intros [= <-]. right. exists q.
        apply Z.eqb_eq in Hs. subst status.
        split; [apply list_elem_of_here|done].
      * intros Hr. destruct (IH _ _ Hr) as [->|(q' & Hin & -> & Hq')];
          [by left|].
        right. exists q'. split; [by apply list_elem_of_further|done].
    + erewrite bind_raise; [|rewrite get_cases, Hf; reflexivity]. done.
Qed.

(** X3. When the fetch for a quality answers 200 and the fetches for the
    qualities before it answered with another status, [get_ytthumb] returns
    the link of that quality after probing exactly these qualities: what the
    fetches for the qualities after it would do, failing included, does not
    matter, since they are never made. *)
Theorem get_ytthumb_found (self : iYTDL) (yt_id : str) (w : World)
    (before : list str) (q : str) (after : list str) :
  QUALITIES = before ++ q :: after →
  Forall (λ q', answers E yt_id q' = true
                ∧ answers_200 E yt_id q' = false) before →
  answers_200 E yt_id q = true →
  get_ytthumb E self yt_id w
  = (Ok (thumb_link yt_id q),
     logs (probe_events (http self) yt_id (before ++ [q])) w).
Proof.
  intros Hqs Hb Hq. unfold get_ytthumb. rewrite Hqs.
  by apply probe_qualities_found.
Qed.

(** X4. Whatever the host does, [get_ytthumb] makes at least one and at most
    five fetches, all on the session of the instance, for the links of the
    qualities in their order up to the first fetch that raises or answers
    200; it changes nothing else in the world. *)
Theorem get_ytthumb_effects (self : iYTDL) (yt_id : str) (w : World) :
  (get_ytthumb E self yt_id w).2
  = logs (probe_events (http self) yt_id
            (probed (ends_loop E yt_id) QUALITIES)) w
  ∧ probed (ends_loop E yt_id) QUALITIES `prefix_of` QUALITIES
  ∧ (1 ≤ length (probed (ends_loop E yt_id) QUALITIES) ≤ 5)%nat.
Proof.
  split; [apply probe_qualities_effects|].
  split; [apply probed_prefix|].
  by apply (probed_length (ends_loop E yt_id) QUALITIES).
Qed.

(** X5. A string that [get_ytthumb] returns is the configured default
    thumbnail, or the link of one of the five qualities whose fetch answered
    with status 200: no link is returned on the strength of another
    answer. *)
Theorem get_ytthumb_sound (self : iYTDL) (yt_id : str) (w : World) (r : str) :
  (get_ytthumb E self yt_id w).1 = Ok r →
  r = default_thumb self
  ∨ ∃ q, q ∈ QUALITIES ∧ r = thumb_link yt_id q
         ∧ http_fetch E (thumb_link yt_id q) = Ok 200.
Proof. apply probe_qualities_sound. Qed.

End thumbnails_more.

Lemma get_ytthumb_found_witness :
  answers_200 env_late_failure vid (lit "maxresdefault") = true
  ∧ answers env_late_failure vid (lit "hqdefault") = false
  ∧ get_ytthumb env_late_failure self_demo vid world_demo
    = (Ok (thumb_link vid (lit "maxresdefault")),
       logs [EvHttpGet 0%nat (thumb_link vid (lit "maxresdefault"))]
            world_demo).
Proof.
  split; [reflexivity|]. split; [vm_compute; reflexivity|].
  apply (get_ytthumb_found env_late_failure self_demo vid world_demo []
           (lit "maxresdefault")
           [lit "hqdefault"; lit "sddefault"; lit "mqdefault"; lit "default"]).
  - reflexivity.
  - constructor.
  - reflexivity.
Defined.

Lemma get_ytthumb_sound_witness :
  (get_ytthumb env_demo self_demo vid world_demo).1
  = Ok (thumb_link vid (lit "sddefault"))
  ∧ (thumb_link vid (lit "sddefault") = default_thumb self_demo
     ∨ ∃ q, q ∈ QUALITIES
            ∧ thumb_link vid (lit "sddefault") = thumb_link vid q
            ∧ http_fetch env_demo (thumb_link vid q) = Ok 200).
Proof.
  assert (H : (get_ytthumb env_demo self_demo vid world_demo).1
              = Ok (thumb_link vid (lit "sddefault")))
    by (vm_compute; reflexivity).
  split; [exact H|].
  exact (get_ytthumb_sound env_demo self_demo vid world_demo _ H).
Defined.

(** ** Further facts about the file system model *)

Module fsys_more.
Import fsys.

(** What exists is left as it is by [os.mkdir]. *)
Lemma os_mkdir_keeps p fs q n :
  node_at fs q = Some n → node_at (os_mkdir p fs).2 q = Some n.
Proof.
  unfold os_mkdir.
  destruct (walk fs p (ancestors p)); [done|].
  destruct (node_at fs p) eqn:Hp; [done|]. simpl.
  unfold node_at in *. destruct (parts q) eqn:Hq; [done|].
  intros Hn. destruct (decide (p = q)) as [->|Hne].
  - rewrite Hq in Hp. congruence.
  - by rewrite lookup_insert_ne.
Qed.

Lemma mkdir_exist_ok_keeps p fs q n :
  node_at fs q = Some n → node_at (mkdir_exist_ok p fs).2 q = Some n.
Proof.
  intros Hn. unfold mkdir_exist_ok.
  pose proof (os_mkdir_keeps p fs q n Hn) as H.
  destruct (os_mkdir p fs) as [[u|e] fs']; simpl in *; [done|].
  destruct e; try (by destruct (is_dir fs' p)); done.
Qed.

Lemma mkdir_rev_keeps rt rws fs q n :
  node_at fs q = Some n → node_at (mkdir_rev rt rws fs).2 q = Some n.
Proof.
  revert fs. induction rws as [|w rws IH]; intros fs Hn; simpl.
  - pose proof (os_mkdir_keeps (mkPath rt []) fs q n Hn) as H.
    destruct (os_mkdir (mkPath rt []) fs) as [[u|e] fs']; simpl in *; [done|].
    destruct e; try (by destruct (is_dir fs' _)); done.
  - pose proof (os_mkdir_keeps (mkPath rt (rev rws ++ [w])) fs q n Hn) as H.
    destruct (os_mkdir (mkPath rt (rev rws ++ [w])) fs) as [[u|e] fs'];
      simpl in *; [done|].
    destruct e; try (by destruct (is_dir fs' _)).
    specialize (IH fs' H).
    destruct (mkdir_rev rt rws fs') as [[u|e] fs'']; simpl in *; [|done].
    by apply mkdir_exist_ok_keeps.
Qed.

(** [mkdir] leaves every file and every directory that exists in place. *)
Lemma mkdir_keeps p fs q n :
  node_at fs q = Some n → node_at (mkdir p fs).2 q = Some n.
Proof. apply mkdir_rev_keeps. Qed.

Lemma mkdir_keeps_dir p fs q :
  is_dir fs q = true → is_dir (mkdir p fs).2 q = true.
Proof.
  rewrite !fsys_facts.is_dir_spec. apply mkdir_keeps.
Qed.

End fsys_more.

(** ** Further properties of tool probing and construction *)

Section construction_more.

Context {SR : Type} (E : Env SR).

(** X6. [_check_ffmpeg] returns the instance as it was or with [_ffprobe]
    set to a tool whose version query exited with status 0; it never clears
    [_ffprobe], so a binding set by an earlier probe outlives a later probe
    that fails. *)
Theorem check_ffmpeg_keeps_binding
    (self : iYTDL) (w : World) (self' : iYTDL) (w' : World) :
  _check_ffmpeg E self w = (Ok self', w') →
  (self' = self
   ∨ ∃ fp, self' = set__ffprobe fp self ∧ query_status E fp = 0)
  ∧ (is_Some (_ffprobe self) → is_Some (_ffprobe self')).
Proof.
  rewrite _check_ffmpeg_cases.
  destruct (query_status E (ffmpeg_tool self) =? 0); [|done].
  intros [= <- _]. unfold after_probe.
  destruct (ffprobe_candidate E self w) as [fp|]; [|by split; [left|]].
  destruct (query_status E fp =? 0) eqn:Hs; [|by split; [left|]].
  apply Z.eqb_eq in Hs. split; [right; by exists fp|].
  intros _. by eexists.
Qed.

(** X7. The constructor creates a session exactly when none is supplied, as
    its first step: the new session is in the store, open, also when
    construction then raises.  It closes no session, and performs no
    operation on the cache or the network. *)
Theorem init_sessions (a : Args) (w : World) :
  sessions (__init__ E a w).2
  = match arg_session a with
    | Some _ => sessions w
    | None => sessions w ++ [false]
    end
  ∧ trace (__init__ E a w).2
    = trace w ++ match arg_session a with
                 | Some _ => []
                 | None => [EvNewSession (length (sessions w))]
                 end
  ∧ cache_rows (__init__ E a w).2 = cache_rows w
  ∧ cache_conn (__init__ E a w).2 = cache_conn w.
Proof.
  assert (H : ∃ f, (__init__ E a w).2 = set_fs f (session_of a w).2).
  { rewrite __init___cases. cbv zeta.
    destruct (fsys.mkdir _ (fs (session_of a w).2)) as [[[]|e1] fs1];
      simpl; [|by eexists].
    destruct (fsys.is_file fs1 _); [by eexists|].
    destruct (fsys.mkdir _ fs1) as [[[]|e2] fs2]; simpl; [|by eexists].
    destruct (_ && _); [by eexists|].
    destruct (extractor_init E (arg_silent a)) as [[]|]; by eexists. }
  destruct H as [f ->]. unfold session_of.
  destruct (arg_session a); simpl; [|done].
  by rewrite app_nil_r.
Qed.

(** X8. The constructor creates directories only: no file is created,
    removed or replaced by it, and every directory that existed still
    exists, whether construction succeeds or raises. *)
Theorem init_keeps_files (a : Args) (w : World) (q : Path) :
  fsys.is_file (fs (__init__ E a w).2) q = fsys.is_file (fs w) q
  ∧ (fsys.is_dir (fs w) q = true →
     fsys.is_dir (fs (__init__ E a w).2) q = true).
Proof.
  rewrite __init___cases. cbv zeta. rewrite fs_session_of.
  pose proof (fsys_facts.mkdir_is_file (pathlib.of_str (arg_cache_path a))
                (fs w) q) as Hf1.
  pose proof (fsys_more.mkdir_keeps_dir (pathlib.of_str (arg_cache_path a))
                (fs w) q) as Hd1.
  destruct (fsys.mkdir (pathlib.of_str (arg_cache_path a)) (fs w))
    as [[[]|e1] fs1]; simpl in *; [|by split].
  destruct (fsys.is_file fs1 (pathlib.of_str (arg_cache_path a)));
    [by split|].
  pose proof (fsys_facts.mkdir_is_file (pathlib.of_str (arg_download_path a))
                fs1 q) as Hf2.
  pose proof (fsys_more.mkdir_keeps_dir (pathlib.of_str (arg_download_path a))
                fs1 q) as Hd2.
  destruct (fsys.mkdir (pathlib.of_str (arg_download_path a)) fs1)
    as [[[]|e2] fs2]; simpl in *;
    [|split; [congruence|auto]].
  destruct (_ && _); [simpl; split; [congruence|auto]|].
  destruct (extractor_init E (arg_silent a)) as [[]|];
    (simpl; split; [congruence|auto]).
Qed.

(** X9. After a successful construction the cache directory and the
    download directory exist as directories, and the database of the cache
    is bound to [yt_search_cache.db] inside the cache directory. *)
Theorem init_makes_directories
    (a : Args) (w : World) (self : iYTDL) (w1 : World) :
  __init__ E a w = (Ok self, w1) →
  fsys.is_dir (fs w1) (pathlib.of_str (arg_cache_path a)) = true
  ∧ fsys.is_dir (fs w1) (download_path self) = true
  ∧ download_path self = pathlib.of_str (arg_download_path a)
  ∧ cache self = pathlib.joinpath (pathlib.of_str (arg_cache_path a))
                   (lit "yt_search_cache.db").
Proof.
  rewrite __init___cases. cbv zeta. rewrite fs_session_of.
  pose proof (fsys_facts.mkdir_ok (pathlib.of_str (arg_cache_path a)) (fs w))
    as Hd1.
  destruct (fsys.mkdir (pathlib.of_str (arg_cache_path a)) (fs w))
    as [[[]|e1] fs1]; simpl in *; [|done].
  specialize (Hd1 eq_refl).
  destruct (fsys.is_file fs1 _); [done|].
  pose proof (fsys_facts.mkdir_ok (pathlib.of_str (arg_download_path a)) fs1)
    as Hd2.
  pose proof (fsys_more.mkdir_keeps_dir (pathlib.of_str (arg_download_path a))
                fs1 _ Hd1) as Hk.
  destruct (fsys.mkdir (pathlib.of_str (arg_download_path a)) fs1)
    as [[[]|e2] fs2]; simpl in *; [|done].
  specialize (Hd2 eq_refl).
  destruct (_ && _); [done|].
  destruct (extractor_init E (arg_silent a)) as [[]|]; [|done].
  intros [= <- <-]. simpl. done.
Qed.

(** X10. The [_ffmpeg] attribute of a constructed instance is either the
    string ["ffmpeg"], when that is the configured location, or the path of
    the configured location, which is then a file that exists; the
    [_ffprobe] attribute does not exist yet. *)
Theorem init_ffmpeg_attribute
    (a : Args) (w : World) (self : iYTDL) (w1 : World) :
  __init__ E a w = (Ok self, w1) →
  match _ffmpeg self with
  | inl s => s = lit "ffmpeg" ∧ arg_ffmpeg_location a = lit "ffmpeg"
  | inr p => p = pathlib.of_str (arg_ffmpeg_location a)
             ∧ arg_ffmpeg_location a ≠ lit "ffmpeg"
             ∧ fsys.is_file (fs w1) p = true
             ∧ fsys.is_file (fs w) p = true
  end
  ∧ _ffprobe self = None.
Proof.
  rewrite __init___cases. cbv zeta. rewrite fs_session_of.
  pose proof (fsys_facts.mkdir_is_file (pathlib.of_str (arg_cache_path a))
                (fs w) (pathlib.of_str (arg_ffmpeg_location a))) as Hf1.
  destruct (fsys.mkdir (pathlib.of_str (arg_cache_path a)) (fs w))
    as [[[]|e1] fs1]; simpl in *; [|done].
  destruct (fsys.is_file fs1 (pathlib.of_str (arg_cache_path a))); [done|].
  pose proof (fsys_facts.mkdir_is_file (pathlib.of_str (arg_download_path a))
                fs1 (pathlib.of_str (arg_ffmpeg_location a))) as Hf2.
  destruct (fsys.mkdir (pathlib.of_str (arg_download_path a)) fs1)
    as [[[]|e2] fs2]; simpl in *; [|done].
  destruct (bool_decide (arg_ffmpeg_location a ≠ lit "ffmpeg")) eqn:Hd;
    simpl.
  - destruct (fsys.is_file fs2 (pathlib.of_str (arg_ffmpeg_location a)))
      eqn:Hfile; simpl; [|done].
    destruct (extractor_init E (arg_silent a)) as [[]|]; [|done].
    intros [= <- <-]. simpl. rewrite Hd. apply bool_decide_eq_true in Hd.
    split; [|done]. repeat split; try done. congruence.
  - destruct (extractor_init E (arg_silent a)) as [[]|]; [|done].
    intros [= <- <-]. simpl. rewrite Hd. apply bool_decide_eq_false in Hd.
    assert (Heq : arg_ffmpeg_location a = lit "ffmpeg").
    { destruct (decide (arg_ffmpeg_location a = lit "ffmpeg")); [done|].
      by destruct Hd. }
    done.
Qed.

End construction_more.

Lemma check_ffmpeg_keeps_binding_witness :
  query_status env_no_ffprobe (inl (lit "ffprobe")) ≠ 0
  ∧ (_check_ffmpeg env_no_ffprobe self_probed world_demo).1 = Ok self_probed
  ∧ is_Some (_ffprobe self_probed).
Proof.
  split; [vm_compute; discriminate|]. split; [vm_compute; reflexivity|].
  assert (H : _check_ffmpeg env_no_ffprobe self_probed world_demo
              = (Ok self_probed,
                 (_check_ffmpeg env_no_ffprobe self_probed world_demo).2))
    by (vm_compute; reflexivity).
  apply (check_ffmpeg_keeps_binding env_no_ffprobe self_probed world_demo
           self_probed _ H).
  by eexists.
Defined.

Lemma init_makes_directories_witness :
  fsys.is_dir (fs world_tools) (pathlib.of_str (lit "cache")) = false
  ∧ fsys.is_dir (fs (__init__ env_demo args_custom_ffmpeg world_tools).2)
      (pathlib.of_str (arg_cache_path args_custom_ffmpeg)) = true.
Proof.
  split; [vm_compute; reflexivity|].
  assert (H : __init__ env_demo args_custom_ffmpeg world_tools
              = (Ok (instance_of args_custom_ffmpeg world_tools),
                 (__init__ env_demo args_custom_ffmpeg world_tools).2))
    by (vm_compute; reflexivity).
  apply (init_makes_directories env_demo args_custom_ffmpeg world_tools _ _ H).
Defined.

Lemma init_ffmpeg_attribute_witness :
  _ffmpeg (instance_of args_custom_ffmpeg world_tools)
  = inr (pathlib.of_str (lit "bin/ffmpeg"))
  ∧ fsys.is_file (fs world_tools) (pathlib.of_str (lit "bin/ffmpeg")) = true
  ∧ _ffprobe (instance_of args_custom_ffmpeg world_tools) = None.
Proof.
  assert (H : __init__ env_demo args_custom_ffmpeg world_tools
              = (Ok (instance_of args_custom_ffmpeg world_tools),
                 (__init__ env_demo args_custom_ffmpeg world_tools).2))
    by (vm_compute; reflexivity).
  pose proof (init_ffmpeg_attribute env_demo args_custom_ffmpeg world_tools
                _ _ H) as [Hff Hprobe].
  split; [vm_compute; reflexivity|]. split; [|exact Hprobe].
  vm_compute. reflexivity.
Defined.

(** ** Further properties of the lifecycle *)

Section lifecycle_more.

Context {SR : Type} (E : Env SR).

(** X11. When the instance is constructed but ffmpeg does not answer its
    version query, the class method [init] raises the [ValueError] of
    [start] and does not stop the instance: the session the constructor
    created or was given is in the store as the constructor left it, never
    closed, and the cache storage was not opened. *)
Theorem init_start_failure (a : Args) (w : World) (self : iYTDL) (w1 : World) :
  __init__ E a w = (Ok self, w1) →
  query_status E (ffmpeg_tool self) ≠ 0 →
  init E a w
  = (Raise (ValueError (lit "'" ++ fmt (ffmpeg_tool self)
                        ++ lit "' was not Found !")),
     logs [EvRunCommand (version_query (ffmpeg_tool self))] w1)
  ∧ sessions (init E a w).2
    = match arg_session a with
      | Some _ => sessions w
      | None => sessions w ++ [false]
      end
  ∧ cache_conn (init E a w).2 = cache_conn w.
Proof.
  intros Hinit Hq.
  assert (Heq : init E a w
                = (Raise (ValueError (lit "'" ++ fmt (ffmpeg_tool self)
                                      ++ lit "' was not Found !")),
                   logs [EvRunCommand (version_query (ffmpeg_tool self))] w1)).
  { unfold init. erewrite bind_ok; [|exact Hinit]. by apply start_raises. }
  destruct (__init___inv E a w self w1 Hinit) as (_ & Hses & _ & Hconn).
  split; [exact Heq|]. rewrite Heq. simpl. split; [|done].
  rewrite Hses. unfold session_of. by destruct (arg_session a).
Qed.

(** X12. The instance the class method [init] returns is started: when
    construction succeeds and ffmpeg answers its version query, [init]
    returns the constructed instance after the probe of the tools, with the
    cache storage initialised after the probe. *)
Theorem init_started (a : Args) (w : World) (self : iYTDL) (w1 : World) :
  __init__ E a w = (Ok self, w1) →
  query_status E (ffmpeg_tool self) = 0 →
  ∃ w2, init E a w = (Ok (after_probe E self w1), w2)
        ∧ cache_conn w2 = true
        ∧ trace w2 = trace w1 ++ probe_trace E self w1
                              ++ [EvCacheInit (cache self)].
Proof.
  intros Hinit Hq. unfold init. erewrite bind_ok; [|exact Hinit].
  by apply start_ok.
Qed.

(** X13. In [async with], once [start] has succeeded, [stop] runs after the
    body on every exit path: whether the body returns or raises, its result
    or its exception is the outcome of the block, and afterwards the
    session of the instance is closed and the cache storage is closed. *)
Theorem async_with_releases {A : Type}
    (self : iYTDL) (body : iYTDL → M A) (w : World) :
  query_status E (ffmpeg_tool self) = 0 →
  ∃ w1, start E self w = (Ok (after_probe E self w), w1)
        ∧ (async_with E self body w).1 = (body (after_probe E self w) w1).1
        ∧ (async_with E self body w).2
          = after_stop self (body (after_probe E self w) w1).2
        ∧ default true (sessions (async_with E self body w).2 !! http self)
          = true
        ∧ cache_conn (async_with E self body w).2 = false.
Proof.
  intros Hq. destruct (start_ok E self w Hq) as (w1 & Hstart & _).
  exists w1. split; [exact Hstart|].
  assert (Hw : async_with E self body w
               = ((body (after_probe E self w) w1).1,
                  after_stop self (body (after_probe E self w) w1).2)).
  { unfold async_with, __aenter__, __aexit__. rewrite Hstart.
    destruct (body (after_probe E self w) w1) as [[r|e] w2];
      by rewrite stop_cases. }
  rewrite Hw. simpl. split; [done|]. split; [done|].
  split; [apply after_stop_closed|].
  unfold after_stop. by destruct (default true (_ !! _)).
Qed.

(** X14. In [async with], when [start] raises because ffmpeg does not answer
    its version query, the block ends with that [ValueError]: the body is
    not run and [stop] is not run, so the sessions are left as they were,
    the session of the instance included. *)
Theorem async_with_enter_fails {A : Type}
    (self : iYTDL) (body : iYTDL → M A) (w : World) :
  query_status E (ffmpeg_tool self) ≠ 0 →
  async_with E self body w
  = (Raise (ValueError (lit "'" ++ fmt (ffmpeg_tool self)
                        ++ lit "' was not Found !")),
     logs [EvRunCommand (version_query (ffmpeg_tool self))] w).
Proof.
  intros Hq. unfold async_with, __aenter__.
  by rewrite (start_raises E self w Hq).
Qed.

(** X15. [stop] touches the session of the instance and the handle of the
    cache only: every other session keeps its state, no session is added or
    removed, and the file system and the rows of the cache are as before. *)
Theorem stop_frame (self : iYTDL) (w : World) :
  fs (stop self w).2 = fs w
  ∧ cache_rows (stop self w).2 = cache_rows w
  ∧ length (sessions (stop self w).2) = length (sessions w)
  ∧ ∀ sid, sid ≠ http self →
           sessions (stop self w).2 !! sid = sessions w !! sid.
Proof.
  rewrite stop_cases. unfold after_stop.
  destruct (default true (sessions w !! http self)); simpl; [done|].
  split; [done|]. split; [done|]. split; [apply length_insert|].
  intros sid Hne. by apply list_lookup_insert_ne.
Qed.

End lifecycle_more.

Lemma init_start_failure_witness :
  query_status env_no_ffmpeg (ffmpeg_tool (instance_of args_demo world_demo))
  ≠ 0
  ∧ (init env_no_ffmpeg args_demo world_demo).1
    = Raise (ValueError (lit "'ffmpeg' was not Found !"))
  ∧ sessions (init env_no_ffmpeg args_demo world_demo).2 = [false; false].
Proof.
  assert (Hq : query_status env_no_ffmpeg
                 (ffmpeg_tool (instance_of args_demo world_demo)) ≠ 0)
    by (vm_compute; discriminate).
  assert (Hinit : __init__ env_no_ffmpeg args_demo world_demo
                  = (Ok (instance_of args_demo world_demo),
                     (__init__ env_no_ffmpeg args_demo world_demo).2))
    by (vm_compute; reflexivity).
  destruct (init_start_failure env_no_ffmpeg args_demo world_demo _ _
              Hinit Hq) as (Heq & Hses & _).
  split; [exact Hq|]. split; [by rewrite Heq|]. exact Hses.
Defined.

Lemma init_started_witness :
  query_status env_demo (ffmpeg_tool (instance_of args_demo world_demo)) = 0
  ∧ ∃ w2, init env_demo args_demo world_demo
          = (Ok (set__ffprobe (inl (lit "ffprobe"))
                   (instance_of args_demo world_demo)), w2)
          ∧ cache_conn w2 = true.
Proof.
  assert (Hq : query_status env_demo
                 (ffmpeg_tool (instance_of args_demo world_demo)) = 0)
    by (vm_compute; reflexivity).
  assert (Hinit : __init__ env_demo args_demo world_demo
                  = (Ok (instance_of args_demo world_demo),
                     (__init__ env_demo args_demo world_demo).2))
    by (vm_compute; reflexivity).
  destruct (init_started env_demo args_demo world_demo _ _ Hinit Hq)
    as (w2 & Heq & Hconn & _).
  split; [exact Hq|]. exists w2. split; [|exact Hconn].
  rewrite Heq. reflexivity.
Defined.

Lemma async_with_releases_witness :
  query_status env_demo (ffmpeg_tool self_demo) = 0
  ∧ (async_with env_demo self_demo body_fails world_demo).1
    = Raise (CollaboratorError (lit "ClientConnectorError"))
  ∧ default true
      (sessions (async_with env_demo self_demo body_fails world_demo).2
       !! http self_demo) = true
  ∧ cache_conn (async_with env_demo self_demo body_fails world_demo).2 = false.
Proof.
  assert (Hq : query_status env_demo (ffmpeg_tool self_demo) = 0)
    by (vm_compute; reflexivity).
  destruct (async_with_releases env_demo self_demo body_fails world_demo Hq)
    as (w1 & _ & _ & _ & Hclosed & Hconn).
  split; [exact Hq|]. split; [vm_compute; reflexivity|].
  split; [exact Hclosed|exact Hconn].
Defined.

Lemma async_with_enter_fails_witness :
  query_status env_no_ffmpeg (ffmpeg_tool self_demo) ≠ 0
  ∧ (async_with env_no_ffmpeg self_demo body_fails world_demo).1
    = Raise (ValueError (lit "'ffmpeg' was not Found !"))
  ∧ sessions (async_with env_no_ffmpeg self_demo body_fails world_demo).2
    = [false].
Proof.
  assert (Hq : query_status env_no_ffmpeg (ffmpeg_tool self_demo) ≠ 0)
    by (vm_compute; discriminate).
  split; [exact Hq|].
  rewrite (async_with_enter_fails env_no_ffmpeg self_demo body_fails
             world_demo Hq).
  split; reflexivity.
Defined.

(** ** Constructing again *)

Module fsys_wf.
Import fsys.

Lemma walk_None fs p anc :
  walk fs p anc = None → Forall (λ a, is_dir fs a = true) anc.
Proof.
  induction anc as [|a anc IH]; simpl; [constructor|].
  destruct (node_at fs a) as [[]|] eqn:Ha; try done.
  intros H. constructor; [by apply fsys_facts.is_dir_spec|by apply IH].
Qed.

Lemma dirs_kept p fs anc :
  Forall (λ a, is_dir fs a = true) anc →
  Forall (λ a, is_dir (os_mkdir p fs).2 a = true) anc.
Proof.
  apply Forall_impl. intros a. rewrite !fsys_facts.is_dir_spec.
  apply fsys_more.os_mkdir_keeps.
Qed.

Lemma os_mkdir_wf p fs : well_formed fs → well_formed (os_mkdir p fs).2.
Proof.
  intros Hwf q n Hq.
  destruct (decide (node_at fs q = Some n)) as [Hold|Hnew].
  { apply dirs_kept. by eapply Hwf. }
  revert Hq. unfold os_mkdir.
  destruct (walk fs p (ancestors p)) eqn:Hwalk; [done|].
  destruct (node_at fs p) eqn:Hp; [done|]. simpl.
  intros Hq.
  assert (q = p) as ->.
  { unfold node_at in *. destruct (parts q); [done|].
    destruct (decide (p = q)) as [->|Hne]; [done|].
    by rewrite lookup_insert_ne in Hq. }
  pose proof (dirs_kept p fs _ (walk_None _ _ _ Hwalk)) as H.
  unfold os_mkdir in H. by rewrite Hwalk, Hp in H.
Qed.

Lemma mkdir_exist_ok_wf p fs :
  well_formed fs → well_formed (mkdir_exist_ok p fs).2.
Proof.
  intros Hwf. unfold mkdir_exist_ok.
  pose proof (os_mkdir_wf p fs Hwf) as H.
  destruct (os_mkdir p fs) as [[u|e] fs']; simpl in *; [done|].
  destruct e; try (by destruct (is_dir fs' p)); done.
Qed.

Lemma mkdir_rev_wf rt rws fs :
  well_formed fs → well_formed (mkdir_rev rt rws fs).2.
Proof.
  revert fs. induction rws as [|w rws IH]; intros fs Hwf; simpl.
  - pose proof (os_mkdir_wf (mkPath rt []) fs Hwf) as H.
    destruct (os_mkdir (mkPath rt []) fs) as [[u|e] fs']; simpl in *; [done|].
    destruct e; try (by destruct (is_dir fs' _)); done.
  - pose proof (os_mkdir_wf (mkPath rt (rev rws ++ [w])) fs Hwf) as H.
    destruct (os_mkdir (mkPath rt (rev rws ++ [w])) fs) as [[u|e] fs'];
      simpl in *; [done|].
    destruct e; try (by destruct (is_dir fs' _)).
    specialize (IH fs' H).
    destruct (mkdir_rev rt rws fs') as [[u|e] fs'']; simpl in *; [|done].
    by apply mkdir_exist_ok_wf.
Qed.

(** [mkdir] keeps the file system well formed. *)
Lemma mkdir_wf p fs : well_formed fs → well_formed (mkdir p fs).2.
Proof. apply mkdir_rev_wf. Qed.

(** On a directory that exists, [mkdir(parents=True, exist_ok=True)]
    returns and changes nothing. *)
Lemma mkdir_on_dir p fs :
  well_formed fs → is_dir fs p = true → mkdir p fs = (Ok tt, fs).
Proof.
  intros Hwf Hd.
  assert (Hn : node_at fs p = Some Dir) by by apply fsys_facts.is_dir_spec.
  assert (Hos : os_mkdir p fs = (Raise (FileExistsError p), fs)).
  { unfold os_mkdir. rewrite (fsys_facts.walk_dirs _ _ _ (Hwf _ _ Hn)).
    by rewrite Hn. }
  unfold mkdir. rewrite fsys_facts.mkdir_rev_head, rev_involutive.
  replace (mkPath (root p) (parts p)) with p by (by destruct p).
  rewrite Hos. by rewrite Hd.
Qed.

End fsys_wf.

Lemma fs_demo_well_formed : well_formed (fs world_tools).
Proof.
  intros p n. unfold fsys.node_at.
  destruct (parts p) as [|c cs] eqn:Hp.
  { intros _. unfold fsys.ancestors. by rewrite Hp. }
  simpl. unfold fs_demo.
  rewrite !lookup_insert_Some, lookup_empty.
  intros [[<- _]|[_ [[<- _]|[_ [[<- _]|[_ ?]]]]]]; [| | |done].
  - vm_compute. repeat constructor.
  - vm_compute. repeat constructor.
  - vm_compute. repeat constructor.
Qed.

Section construction_again.

Context {SR : Type} (E : Env SR).

(** X16. Construction can be repeated.  In a well-formed file system, when
    the constructor has returned an instance, calling it again with the same
    arguments returns an instance with the same directories, cache database
    and ffmpeg location, and leaves the file system exactly as the first
    call left it: [mkdir(exist_ok=True, parents=True)] finds the directories
    in place. *)
Theorem init_again (a : Args) (w : World) (self : iYTDL) (w1 : World) :
  well_formed (fs w) →
  __init__ E a w = (Ok self, w1) →
  ∃ self2 w2,
    __init__ E a w1 = (Ok self2, w2)
    ∧ fs w2 = fs w1
    ∧ cache self2 = cache self
    ∧ download_path self2 = download_path self
    ∧ _ffmpeg self2 = _ffmpeg self.
Proof.
  intros Hwf Hinit.
  assert (Hwf1 : well_formed (fs w1)
                 ∧ fsys.is_dir (fs w1) (pathlib.of_str (arg_cache_path a))
                   = true
                 ∧ fsys.is_dir (fs w1) (pathlib.of_str (arg_download_path a))
                   = true
                 ∧ (arg_ffmpeg_location a = lit "ffmpeg"
                    ∨ fsys.is_file (fs w1)
                        (pathlib.of_str (arg_ffmpeg_location a)) = true)
                 ∧ is_ok (extractor_init E (arg_silent a)) = true
                 ∧ self = instance_of a w).
  { revert Hinit. rewrite __init___cases. cbv zeta. rewrite fs_session_of.
    pose proof (fsys_wf.mkdir_wf (pathlib.of_str (arg_cache_path a)) (fs w)
                  Hwf) as Hw1.
    pose proof (fsys_facts.mkdir_ok (pathlib.of_str (arg_cache_path a))
                  (fs w)) as Hd1.
    destruct (fsys.mkdir (pathlib.of_str (arg_cache_path a)) (fs w))
      as [[[]|e1] fs1]; simpl in *; [|done].
    specialize (Hd1 eq_refl).
    destruct (fsys.is_file fs1 (pathlib.of_str (arg_cache_path a))); [done|].
    pose proof (fsys_wf.mkdir_wf (pathlib.of_str (arg_download_path a)) fs1
                  Hw1) as Hw2.
    pose proof (fsys_facts.mkdir_ok (pathlib.of_str (arg_download_path a))
                  fs1) as Hd2.
    pose proof (fsys_more.mkdir_keeps_dir
                  (pathlib.of_str (arg_download_path a)) fs1 _ Hd1) as Hk.
    destruct (fsys.mkdir (pathlib.of_str (arg_download_path a)) fs1)
      as [[[]|e2] fs2]; simpl in *; [|done].
    specialize (Hd2 eq_refl).
    destruct (bool_decide (arg_ffmpeg_location a ≠ lit "ffmpeg")) eqn:Hb;
      simpl.
    - destruct (fsys.is_file fs2 (pathlib.of_str (arg_ffmpeg_location a)))
        eqn:Hfile; simpl; [|done].
      destruct (extractor_init E (arg_silent a)) as [[]|]; [|done].
      intros [= <- <-]. simpl. repeat split; try done. by right.
    - destruct (extractor_init E (arg_silent a)) as [[]|]; [|done].
      intros [= <- <-]. simpl. repeat split; try done. left.
      apply bool_decide_eq_false in Hb.
      destruct (decide (arg_ffmpeg_location a = lit "ffmpeg")); [done|].
      by destruct Hb. }
  destruct Hwf1 as (Hw1 & Hc & Hd & Hff & Hex & ->).
  pose proof (fsys_wf.mkdir_on_dir _ _ Hw1 Hc) as Hm1.
  pose proof (fsys_wf.mkdir_on_dir _ _ Hw1 Hd) as Hm2.
  destruct (__init___ok E a w1) as (w2 & Heq & _).
  { by rewrite Hm1. }
  { rewrite Hm1. simpl. by rewrite Hm2. }
  { exact Hff. }
  { exact Hex. }
  exists (instance_of a w1), w2. split; [exact Heq|].
  split; [|done].
  revert Heq. rewrite __init___cases. cbv zeta. rewrite fs_session_of.
  rewrite Hm1. simpl.
  rewrite (fsys_facts.dir_not_file _ _ Hc). rewrite Hm2. simpl.
  destruct (_ && _); [done|].
  destruct (extractor_init E (arg_silent a)) as [[]|]; [|done].
  intros [= <-]. done.
Qed.

End construction_again.

Lemma init_again_witness :
  ∃ self2 w2,
    __init__ env_demo args_custom_ffmpeg
      (__init__ env_demo args_custom_ffmpeg world_tools).2 = (Ok self2, w2)
    ∧ fs w2 = fs (__init__ env_demo args_custom_ffmpeg world_tools).2.
Proof.
  assert (H : __init__ env_demo args_custom_ffmpeg world_tools
              = (Ok (instance_of args_custom_ffmpeg world_tools),
                 (__init__ env_demo args_custom_ffmpeg world_tools).2))
    by (vm_compute; reflexivity).
  destruct (init_again env_demo args_custom_ffmpeg world_tools _ _
              fs_demo_well_formed H) as (self2 & w2 & Heq & Hfs & _).
  exists self2, w2. split; [exact Heq|exact Hfs].
Defined.
